(** * The system-tray example of the xpra GTK client

    A shallow embedding of [xpra/client/gtk_base/example/tray.py]: the
    [FakeApplication] object, its constructor (menu-helper selection,
    menu construction, tray-backend selection, tooltip) and its four
    tray callbacks.

    Python objects are records; an attribute that may not have been
    assigned yet is an [option] ([None] = the attribute does not exist,
    reading it raises [AttributeError]).  Exceptions are values carrying
    their class, with the subclass relation of the Python built-ins, so
    that [except Exception] and [except ImportError] catch what they
    catch in Python.  Calls into collaborators that live outside the
    file (the platform getters, the menu-helper and tray classes, GLib,
    Gtk, the logger) are recorded, in order, in a trace of events. *)

From Stdlib Require Import ZArith List String Bool Lia Floats.
Import ListNotations.
Local Open Scope string_scope.
Local Open Scope list_scope.
Local Open Scope Z_scope.

(** ** Python exceptions *)

Module Py.

Inductive exn_class : Type :=
| BaseException
| KeyboardInterrupt
| SystemExit
| Exception
| ImportError
| ModuleNotFoundError
| NameError
| UnboundLocalError
| AttributeError
| AssertionError
| RuntimeError
| OSError.

Definition exn_class_eqb (a b : exn_class) : bool :=
  match a, b with
  | BaseException, BaseException
  | KeyboardInterrupt, KeyboardInterrupt
  | SystemExit, SystemExit
  | Exception, Exception
  | ImportError, ImportError
  | ModuleNotFoundError, ModuleNotFoundError
  | NameError, NameError
  | UnboundLocalError, UnboundLocalError
  | AttributeError, AttributeError
  | AssertionError, AssertionError
  | RuntimeError, RuntimeError
  | OSError, OSError => true
  | _, _ => false
  end.

(** The direct base class, as in the built-in hierarchy. *)
Definition base (c : exn_class) : option exn_class :=
  match c with
  | BaseException => None
  | KeyboardInterrupt | SystemExit | Exception => Some BaseException
  | ModuleNotFoundError => Some ImportError
  | UnboundLocalError => Some NameError
  | ImportError | NameError | AttributeError | AssertionError
  | RuntimeError | OSError => Some Exception
  end.

(** Method resolution order: the class followed by its ancestors.  The
    hierarchy is three levels deep below [BaseException]. *)
Definition mro (c : exn_class) : list exn_class :=
  c :: match base c with
       | None => []
       | Some b1 =>
           b1 :: match base b1 with
                 | None => []
                 | Some b2 =>
                     b2 :: match base b2 with
                           | None => []
                           | Some b3 => [b3]
                           end
                 end
       end.

Definition issubclass (c d : exn_class) : bool :=
  existsb (exn_class_eqb d) (mro c).

Record exn : Type := mkExn { exn_cls : exn_class; exn_msg : string }.

(** [isinstance e d]: what an [except d] clause tests. *)
Definition isinstance (e : exn) (d : exn_class) : bool :=
  issubclass (exn_cls e) d.

(** Outcome of evaluating an expression or calling a function. *)
Inductive result (A : Type) : Type :=
| Returns (a : A)
| Raises (e : exn).

Arguments Returns {A} a.
Arguments Raises {A} e.

Definition returned {A} (r : result A) : bool :=
  match r with Returns _ => true | Raises _ => false end.

(** Values that reach the logger or arrive as [*args]. *)
#[local] Set Warnings "-register-all".
Inductive value : Type :=
| VNone
| VBool (b : bool)
| VInt (z : Z)
| VStr (s : string)
| VExn (e : exn)
| VTuple (vs : list value).

End Py.

Import Py.

(** ** MockClientState: the attributes assigned by lines 22 to 89 *)

(** Function objects stored in attributes. *)
Inductive FunctionRef : Type :=
| GLib_idle_add
| GLib_timeout_add
| GLib_source_remove
| noop.

Record MockClientState : Type := {
  idle_add : FunctionRef;
  timeout_add : FunctionRef;
  source_remove : FunctionRef;
  display_desc : list (string * value);
  session_name : string;
  mmap_enabled : bool;
  windows_enabled : bool;
  readonly : bool;
  opengl_enabled : bool;
  modal_windows : bool;
  server_bell : bool;
  server_cursors : bool;
  server_readonly : bool;
  server_client_shutdown : bool;
  server_sharing : bool;
  server_sharing_toggle : bool;
  server_lock : bool;
  server_lock_toggle : bool;
  server_av_sync : bool;
  server_virtual_video_devices : Z;
  server_webcam : bool;
  server_sound_send : bool;
  server_sound_receive : bool;
  server_clipboard : bool;
  server_bandwidth_limit_change : Z;
  server_encodings : list string;
  server_encodings_problematic : list string;
  server_encodings_with_quality : list string;
  server_encodings_with_speed : list string;
  server_start_new_commands : bool;
  server_xdg_menu : bool;
  server_commands_info : value;
  speaker_allowed : bool;
  speaker_enabled : bool;
  microphone_enabled : bool;
  microphone_allowed : bool;
  client_supports_opengl : bool;
  client_supports_notifications : bool;
  client_supports_system_tray : bool;
  client_supports_clipboard : bool;
  client_supports_cursors : bool;
  client_supports_bell : bool;
  client_supports_sharing : bool;
  client_lock : bool;
  download_server_log : value;
  remote_file_transfer : bool;
  remote_file_transfer_ask : bool;
  notifications_enabled : bool;
  client_clipboard_direction : string;
  clipboard_enabled : bool;
  cursors_enabled : bool;
  default_cursor_data : value;
  bell_enabled : bool;
  keyboard_helper : value;
  av_sync : bool;
  webcam_forwarding : bool;
  webcam_device : value;
  can_scale : bool;
  xscale : float;
  yscale : float;
  quality : Z;
  speed : Z;
  encoding : string;
  send_download_request : value;
  _remote_subcommands : list value;
  _process_encodings : FunctionRef
}.

Definition mock_client_state : MockClientState := {|
  idle_add := GLib_idle_add;
  timeout_add := GLib_timeout_add;
  source_remove := GLib_source_remove;
  display_desc := [];
  session_name := "Test System Tray";
  mmap_enabled := false;
  windows_enabled := true;
  readonly := false;
  opengl_enabled := false;
  modal_windows := false;
  server_bell := false;
  server_cursors := false;
  server_readonly := false;
  server_client_shutdown := true;
  server_sharing := true;
  server_sharing_toggle := true;
  server_lock := true;
  server_lock_toggle := true;
  server_av_sync := true;
  server_virtual_video_devices := 4;
  server_webcam := true;
  server_sound_send := true;
  server_sound_receive := true;
  server_clipboard := false;
  server_bandwidth_limit_change := 0;
  server_encodings := ["png"; "rgb"];
  server_encodings_problematic := [];
  server_encodings_with_quality := [];
  server_encodings_with_speed := [];
  server_start_new_commands := true;
  server_xdg_menu := false;
  server_commands_info := VNone;
  speaker_allowed := true;
  speaker_enabled := true;
  microphone_enabled := true;
  microphone_allowed := true;
  client_supports_opengl := true;
  client_supports_notifications := true;
  client_supports_system_tray := true;
  client_supports_clipboard := true;
  client_supports_cursors := true;
  client_supports_bell := true;
  client_supports_sharing := true;
  client_lock := false;
  download_server_log := VNone;
  remote_file_transfer := true;
  remote_file_transfer_ask := true;
  notifications_enabled := false;
  client_clipboard_direction := "both";
  clipboard_enabled := true;
  cursors_enabled := true;
  default_cursor_data := VNone;
  bell_enabled := false;
  keyboard_helper := VNone;
  av_sync := true;
  webcam_forwarding := true;
  webcam_device := VNone;
  can_scale := true;
  xscale := 1%float;
  yscale := 1%float;
  quality := 80;
  speed := 50;
  encoding := "png";
  send_download_request := VNone;
  _remote_subcommands := [];
  _process_encodings := noop
|}.

(** ** Collaborators *)

(** The menu object returned by [menu_helper.build()]. *)
Inductive MenuHandle : Type := Menu (id : Z).

(** A menu-helper instance: [bool(instance)], and the outcome of its
    [build()] method. *)
Record MenuHelper : Type := {
  mh_name : string;
  mh_truthy : bool;
  mh_build : result MenuHandle
}.

Definition Rectangle : Type := (Z * Z * Z * Z)%type.

(** A tray instance, with the two methods the file calls on it. *)
Record TrayHandle : Type := {
  th_name : string;
  th_set_tooltip : string -> result unit;
  th_get_geometry : result Rectangle
}.

(** The object under construction.  [client] is [None] until the
    attribute assignments of lines 22 to 89 have run; [menu_helper] and
    [tray] are [None] until lines 97 and 111 assign them. *)
Record FakeApplication : Type := {
  client : option MockClientState;
  menu_helper : option MenuHelper;
  tray : option TrayHandle
}.

(** Bound methods of the application, passed around as callbacks. *)
Inductive Callback : Type :=
| cb_xpra_tray_geometry
| cb_xpra_tray_click
| cb_xpra_tray_mouseover
| cb_xpra_tray_exit.

(** The positional arguments of a tray constructor, after [self]. *)
Record TrayArgs : Type := {
  ta_app_id : Z;
  ta_menu : MenuHandle;
  ta_tooltip : string;
  ta_icon_filename : string;
  ta_geometry_cb : Callback;
  ta_click_cb : Callback;
  ta_mouseover_cb : Callback;
  ta_exit_cb : Callback
}.

(** A class is its name and what calling it does. *)
Record MenuHelperClass : Type := {
  mhc_name : string;
  mhc_new : FakeApplication -> result MenuHelper
}.

Record TrayClass : Type := {
  tc_name : string;
  tc_new : FakeApplication -> TrayArgs -> result TrayHandle
}.

(** What the modules outside this file answer: the two platform getters
    and the two imports done inside [__init__].  An entry [None] in a
    candidate list is Python's [None]. *)
Record Platform : Type := {
  get_native_tray_menu_helper_class : result (option MenuHelperClass);
  import_GTK3TrayMenu : result MenuHelperClass;
  get_native_tray_classes : result (list (option TrayClass));
  import_GTKStatusIconTray : result TrayClass
}.

(** ** Events and the execution monad *)

Inductive LogLevel : Type := Debug | Warn | Error.

(** The menu-helper methods handed to [idle_add]. *)
Inductive MenuMethod : Type := activate | popup.

Inductive Event : Type :=
| EvLog (lvl : LogLevel) (fmt : string) (args : list value)
| EvMenuHelperInit (cls : string)
| EvMenuBuild (helper : string) (r : result MenuHandle)
| EvTrayInit (cls : string) (args : TrayArgs)
| EvSetTooltip (handle : string) (text : string)
| EvGetGeometry (handle : string)
| EvSchedule (f : FunctionRef) (m : MenuMethod) (button : Z) (time : Z)
| EvMainQuit.

(** The mutable world: the application object and the trace of calls,
    oldest first. *)
Record World : Type := {
  app : FakeApplication;
  events : list Event
}.

(** A computation changes the world and returns or raises.  The world
    is kept when an exception is raised, as Python keeps the heap. *)
Definition M (A : Type) : Type := World -> World * result A.

Definition ret {A} (a : A) : M A := fun w => (w, Returns a).

Definition raise {A} (e : exn) : M A := fun w => (w, Raises e).

Definition bind {A B} (c : M A) (k : A -> M B) : M B :=
  fun w =>
    match c w with
    | (w', Returns a) => k a w'
    | (w', Raises e) => (w', Raises e)
    end.

Declare Scope py_scope.
Delimit Scope py_scope with py.
Notation "x <- c ;; k" := (bind c (fun x => k))
  (at level 61, c at next level, right associativity) : py_scope.
Notation "c ;; k" := (bind c (fun _ => k))
  (at level 61, right associativity) : py_scope.
Local Open Scope py_scope.

(** [try: body except cls as e: handler e]. *)
Definition try_except {A} (body : M A) (cls : exn_class)
    (handler : exn -> M A) : M A :=
  fun w =>
    match body w with
    | (w', Returns a) => (w', Returns a)
    | (w', Raises e) =>
        if isinstance e cls then handler e w' else (w', Raises e)
    end.

Definition eval {A} (r : result A) : M A := fun w => (w, r).

Definition emit (ev : Event) : M unit :=
  fun w => ({| app := app w; events := events w ++ [ev] |}, Returns tt).

Definition get_self : M FakeApplication := fun w => (w, Returns (app w)).

Definition set_self (a : FakeApplication) : M unit :=
  fun w => ({| app := a; events := events w |}, Returns tt).

(** Attribute reads: a missing attribute raises [AttributeError]. *)
Definition no_attribute (name : string) : exn :=
  mkExn AttributeError
    ("'FakeApplication' object has no attribute '" ++ name ++ "'")%string.

Definition getattr {A} (name : string) (field : FakeApplication -> option A)
    : M A :=
  fun w =>
    match field (app w) with
    | Some v => (w, Returns v)
    | None => (w, Raises (no_attribute name))
    end.

(** Reading a local variable that no statement has bound yet. *)
Definition unbound_local (name : string) : exn :=
  mkExn UnboundLocalError
    ("cannot access local variable '" ++ name
     ++ "' where it is not associated with a value")%string.

Definition load_local {A} (name : string) (v : option A) : M A :=
  match v with
  | Some a => ret a
  | None => raise (unbound_local name)
  end.

(** [log(...)], [log.warn(...)], [log.error(...)]. *)
Definition log (lvl : LogLevel) (fmt : string) (args : list value) : M unit :=
  emit (EvLog lvl fmt args).

(** ** FakeApplication.__init__ *)

Definition getattr_client {A} (name : string) (field : MockClientState -> A)
    : M A :=
  cs <- getattr name client ;; ret (field cs).

(** Lines 22 to 89: plain attribute assignments. *)
Definition assign_client_state : M unit :=
  self <- get_self ;;
  set_self {| client := Some mock_client_state;
              menu_helper := menu_helper self;
              tray := tray self |}.

Definition set_menu_helper (mh : MenuHelper) : M unit :=
  self <- get_self ;;
  set_self {| client := client self;
              menu_helper := Some mh;
              tray := tray self |}.

Definition set_tray (t : TrayHandle) : M unit :=
  self <- get_self ;;
  set_self {| client := client self;
              menu_helper := menu_helper self;
              tray := Some t |}.

(** Lines 90 to 93.  The answer is the local variable [GTKTrayMenu]:
    [None] when the [except] clause ran, which logs and binds nothing. *)
Definition import_GTKTrayMenu (p : Platform) : M (option MenuHelperClass) :=
  try_except
    (c <- eval (import_GTK3TrayMenu p) ;; ret (Some c))
    ImportError
    (fun e =>
       log Warn "failed to load GTK tray menu class: %s" [VExn e] ;;
       ret None).

(** Lines 96 to 99, for a truthy [x]. *)
Definition try_menu_helper (x : MenuHelperClass) : M unit :=
  try_except
    (self <- get_self ;;
     emit (EvMenuHelperInit (mhc_name x)) ;;
     mh <- eval (mhc_new x self) ;;
     set_menu_helper mh)
    Exception
    (fun e =>
       log Warn "failed to create menu helper %s: %s"
         [VStr (mhc_name x); VExn e]).

(** Lines 94 to 99: the loop over the menu-helper candidates. *)
Fixpoint menu_helper_loop (xs : list (option MenuHelperClass)) : M unit :=
  match xs with
  | [] => ret tt
  | x :: rest =>
      (match x with
       | Some c => try_menu_helper c
       | None => ret tt
       end) ;;
      menu_helper_loop rest
  end.

Definition XPRA_APP_ID : Z := 0.
Definition tray_icon_filename : string := "xpra".

(** The arguments of line 111 to 113. *)
Definition tray_args (menu : MenuHandle) : TrayArgs := {|
  ta_app_id := XPRA_APP_ID;
  ta_menu := menu;
  ta_tooltip := "Test System Tray";
  ta_icon_filename := tray_icon_filename;
  ta_geometry_cb := cb_xpra_tray_geometry;
  ta_click_cb := cb_xpra_tray_click;
  ta_mouseover_cb := cb_xpra_tray_mouseover;
  ta_exit_cb := cb_xpra_tray_exit
|}.

(** Lines 108 to 115, for a truthy [x]. *)
Definition try_tray (menu : MenuHandle) (x : TrayClass) : M unit :=
  try_except
    (self <- get_self ;;
     emit (EvTrayInit (tc_name x) (tray_args menu)) ;;
     t <- eval (tc_new x self (tray_args menu)) ;;
     set_tray t)
    Exception
    (fun e =>
       log Warn "failed to create tray %s: %s" [VStr (tc_name x); VExn e]).

(** Lines 106 to 115: the loop over the tray candidates. *)
Fixpoint tray_loop (menu : MenuHandle) (xs : list (option TrayClass))
    : M unit :=
  match xs with
  | [] => ret tt
  | x :: rest =>
      (match x with
       | Some c => try_tray menu c
       | None => ret tt
       end) ;;
      tray_loop menu rest
  end.

(** Lines 102 to 105: the local [GTKStatusIconTray], Python's [None]
    when the import fails. *)
Definition import_statusicon_tray (p : Platform) : M (option TrayClass) :=
  try_except
    (c <- eval (import_GTKStatusIconTray p) ;; ret (Some c))
    ImportError
    (fun _ => ret None).

(** Lines 90 to 100: from the import of the menu class to the assertion. *)
Definition select_menu_helper (p : Platform) : M unit :=
  GTKTrayMenu <- import_GTKTrayMenu p ;;
  native <- eval (get_native_tray_menu_helper_class p) ;;
  gtk <- load_local "GTKTrayMenu" GTKTrayMenu ;;
  menu_helper_loop [native; Some gtk] ;;
  mh <- getattr "menu_helper" menu_helper ;;
  if mh_truthy mh then ret tt else raise (mkExn AssertionError "").

(** Lines 90 to 101: the menu, built by the menu helper that is bound. *)
Definition build_menu (p : Platform) : M MenuHandle :=
  select_menu_helper p ;;
  mh <- getattr "menu_helper" menu_helper ;;
  emit (EvMenuBuild (mh_name mh) (mh_build mh)) ;;
  eval (mh_build mh).

(** Lines 102 to 106: the list the tray loop iterates over. *)
Definition tray_candidates (p : Platform) : M (list (option TrayClass)) :=
  GTKStatusIconTray <- import_statusicon_tray p ;;
  natives <- eval (get_native_tray_classes p) ;;
  ret (natives ++ [GTKStatusIconTray]).

(** Lines 102 to 116: from the import of the fallback tray class to the
    tooltip. *)
Definition attach_tray (p : Platform) (menu : MenuHandle) : M unit :=
  xs <- tray_candidates p ;;
  tray_loop menu xs ;;
  t <- getattr "tray" tray ;;
  emit (EvSetTooltip (th_name t) "Test System Tray") ;;
  eval (th_set_tooltip t "Test System Tray").

Definition __init__ (p : Platform) : M unit :=
  assign_client_state ;;
  menu <- build_menu p ;;
  attach_tray p menu.

(** A new object has no attribute; nothing has happened yet. *)
Definition new_object : World :=
  {| app := {| client := None; menu_helper := None; tray := None |};
     events := [] |}.

(** The object once lines 22 to 89 have run. *)
Definition fields_assigned : World := fst (assign_client_state new_object).

(** [FakeApplication()]. *)
Definition construct (p : Platform) : World * result unit :=
  __init__ p new_object.

(** ** The tray callbacks *)

Definition repr_rectangle (r : Rectangle) : value :=
  let '(x, y, w, h) := r in VTuple [VInt x; VInt y; VInt w; VInt h].

(** Lines 160 to 165.  [time] has the default value 0. *)
Definition xpra_tray_click (button : Z) (pressed : bool) (time : Z) : M unit :=
  log Debug "xpra_tray_click(%s, %s, %s)" [VInt button; VBool pressed; VInt time] ;;
  if (button =? 1) && pressed then
    f <- getattr_client "idle_add" idle_add ;;
    _ <- getattr "menu_helper" menu_helper ;;
    emit (EvSchedule f activate button time)
  else if (button =? 3) && negb pressed then
    f <- getattr_client "idle_add" idle_add ;;
    _ <- getattr "menu_helper" menu_helper ;;
    emit (EvSchedule f popup button time)
  else ret tt.

(** Lines 167 to 168. *)
Definition xpra_tray_mouseover (args : list value) : M unit :=
  log Debug "xpra_tray_mouseover(%s)" [VTuple args].

(** Lines 170 to 172. *)
Definition xpra_tray_exit (args : list value) : M unit :=
  log Debug "xpra_tray_exit%s" [VTuple args] ;;
  emit EvMainQuit.

(** Lines 174 to 175: the arguments of the log call are evaluated
    first, so the geometry is read before anything is logged. *)
Definition xpra_tray_geometry (args : list value) : M unit :=
  t <- getattr "tray" tray ;;
  emit (EvGetGeometry (th_name t)) ;;
  g <- eval (th_get_geometry t) ;;
  log Debug "xpra_tray_geometry%s geometry=%s" [VTuple args; repr_rectangle g].

(** Lines 178 to 179. *)
Definition disconnect_and_quit (args : list value) : M unit :=
  emit EvMainQuit.

(** What a tray backend can deliver, and the callback it goes to. *)
Inductive TrayEvent : Type :=
| Click (button : Z) (pressed : bool) (time : Z)
| Mouseover (args : list value)
| ExitRequest (args : list value)
| GeometryQuery (args : list value).

Definition callback_of (ev : TrayEvent) : Callback :=
  match ev with
  | Click _ _ _ => cb_xpra_tray_click
  | Mouseover _ => cb_xpra_tray_mouseover
  | ExitRequest _ => cb_xpra_tray_exit
  | GeometryQuery _ => cb_xpra_tray_geometry
  end.

Definition deliver (ev : TrayEvent) : M unit :=
  match ev with
  | Click button pressed time => xpra_tray_click button pressed time
  | Mouseover args => xpra_tray_mouseover args
  | ExitRequest args => xpra_tray_exit args
  | GeometryQuery args => xpra_tray_geometry args
  end.

(** Delivering a sequence of events, stopping at the first exception
    that leaves a callback. *)
Fixpoint deliver_all (evs : list TrayEvent) : M unit :=
  match evs with
  | [] => ret tt
  | ev :: rest => deliver ev ;; deliver_all rest
  end.

(** ** Reading the trace *)

(** The events a computation adds to the trace of [w]. *)
Definition new_events {A} (c : M A) (w : World) : list Event :=
  skipn (List.length (events w)) (events (fst (c w))).

(** The [(button, time)] pairs handed to [GLib.idle_add] together with
    the menu-helper method [m]. *)
Fixpoint scheduled (m : MenuMethod) (evs : list Event) : list (Z * Z) :=
  match evs with
  | [] => []
  | EvSchedule GLib_idle_add activate b t :: rest =>
      match m with
      | activate => (b, t) :: scheduled m rest
      | popup => scheduled m rest
      end
  | EvSchedule GLib_idle_add popup b t :: rest =>
      match m with
      | popup => (b, t) :: scheduled m rest
      | activate => scheduled m rest
      end
  | _ :: rest => scheduled m rest
  end.

Definition is_schedule (ev : Event) : bool :=
  match ev with EvSchedule _ _ _ _ => true | _ => false end.

Definition is_tray_init (ev : Event) : bool :=
  match ev with EvTrayInit _ _ => true | _ => false end.

Definition is_menu_helper_init (ev : Event) : bool :=
  match ev with EvMenuHelperInit _ => true | _ => false end.

Definition is_main_quit (ev : Event) : bool :=
  match ev with EvMainQuit => true | _ => false end.

(** How many times [Gtk.main_quit()] has been called. *)
Definition quit_calls (evs : list Event) : nat :=
  List.length (filter is_main_quit evs).

(** ** Outcomes of a tray class, whatever the state of the owner *)

Definition tray_succeeds_with (menu : MenuHandle) (c : TrayClass)
    (h : TrayHandle) : Prop :=
  forall self, tc_new c self (tray_args menu) = Returns h.

(** The constructor raises, and what it raises is an [Exception]. *)
Definition tray_fails (menu : MenuHandle) (c : TrayClass) : Prop :=
  forall self, exists e,
    tc_new c self (tray_args menu) = Raises e /\ isinstance e Exception = true.

(** Whatever the constructor raises is an [Exception]: the loop goes on. *)
Definition tray_caught (menu : MenuHandle) (c : TrayClass) : Prop :=
  forall self e,
    tc_new c self (tray_args menu) = Raises e -> isinstance e Exception = true.

(** The constructor raises, whatever it is given. *)
Definition tray_never_returns (c : TrayClass) : Prop :=
  forall self args, returned (tc_new c self args) = false.

(** ** Sample collaborators *)

Definition runtime_error (msg : string) : exn := mkExn RuntimeError msg.

Definition good_helper (name : string) (id : Z) : MenuHelperClass := {|
  mhc_name := name;
  mhc_new := fun _ =>
    Returns {| mh_name := name; mh_truthy := true;
               mh_build := Returns (Menu id) |}
|}.

Definition good_handle (name : string) : TrayHandle := {|
  th_name := name;
  th_set_tooltip := fun _ => Returns tt;
  th_get_geometry := Returns (0, 0, 24, 24)
|}.


Definition good_tray (name : string) : TrayClass := {|
  tc_name := name;
  tc_new := fun _ _ => Returns (good_handle name)
|}.

Definition bad_tray (name : string) : TrayClass := {|
  tc_name := name;
  tc_new := fun _ _ => Raises (runtime_error "no system tray")
|}.

Definition import_error (name : string) : exn :=
  mkExn ModuleNotFoundError ("No module named '" ++ name ++ "'")%string.

(** Both classes of tray work. *)
Definition platform_two_trays : Platform := {|
  get_native_tray_menu_helper_class := Returns None;
  import_GTK3TrayMenu := Returns (good_helper "GTK3TrayMenu" 1);
  get_native_tray_classes := Returns [Some (good_tray "native")];
  import_GTKStatusIconTray := Returns (good_tray "GTKStatusIconTray")
|}.

(** The native tray works, the fallback does not. *)
Definition platform_native_only : Platform := {|
  get_native_tray_menu_helper_class := Returns None;
  import_GTK3TrayMenu := Returns (good_helper "GTK3TrayMenu" 1);
  get_native_tray_classes := Returns [Some (good_tray "native")];
  import_GTKStatusIconTray := Returns (bad_tray "GTKStatusIconTray")
|}.


(** The GTK menu class cannot be imported; the platform has its own. *)
Definition platform_no_gtk_menu : Platform := {|
  get_native_tray_menu_helper_class := Returns (Some (good_helper "native" 2));
  import_GTK3TrayMenu := Raises (import_error "xpra.client.gtk3.tray_menu");
  get_native_tray_classes := Returns [Some (good_tray "native")];
  import_GTKStatusIconTray := Returns (good_tray "GTKStatusIconTray")
|}.


(** The rule of lines 162 and 164, as a test on the arguments. *)
Definition click_rule_matches (button : Z) (pressed : bool) : bool :=
  ((button =? 1) && pressed) || ((button =? 3) && negb pressed).

(** ** Relations between the world before and after a step *)

Definition same_app (w w' : World) : Prop := app w' = app w.
Definition same_client (w w' : World) : Prop := client (app w') = client (app w).
Definition same_menu_helper (w w' : World) : Prop :=
  menu_helper (app w') = menu_helper (app w).
Definition same_tray (w w' : World) : Prop := tray (app w') = tray (app w).

(** [keeps R c]: running [c] relates the world it starts from to the
    world it leaves, whether it returns or raises. *)
Definition keeps (R : World -> World -> Prop) {A} (c : M A) : Prop :=
  forall w, R w (fst (c w)).

(** The trace of [w'] is the trace of [w] followed by events that
    satisfy [P]. *)
Definition appends (P : Event -> Prop) (w w' : World) : Prop :=
  exists added, events w' = events w ++ added /\ Forall P added.

Definition any_event (ev : Event) : Prop := True.

Definition not_tray_init (ev : Event) : Prop := is_tray_init ev = false.

(** A tray constructor, if that is what the event is, was given the
    arguments of line 111 with the menu [m]. *)
Definition tray_init_with (m : MenuHandle) (ev : Event) : Prop :=
  forall cls args, ev = EvTrayInit cls args -> args = tray_args m.

(** The object once [self.tray = h] has run. *)
Definition with_tray (a : FakeApplication) (h : TrayHandle) : FakeApplication :=
  {| client := client a; menu_helper := menu_helper a; tray := Some h |}.

(** [Gtk.main_quit()] has been called at least once. *)
Definition quit_requested (w : World) : bool :=
  existsb is_main_quit (events w).

(** The application once the constructor has completed, both tray
    classes working. *)
Definition world_running : World := fst (construct platform_two_trays).

(** ** FakeApplication.get_image *)

(** A loaded pixbuf and a scaled image, as opaque handles. *)
Inductive Pixbuf : Type := PixbufHandle (id : Z).
Inductive Image : Type := ImageHandle (id : Z).

(** The three functions [get_image] calls: [get_icon_filename] of
    [xpra.platform.paths], [GdkPixbuf.Pixbuf.new_from_file] and
    [scaled_image] of [xpra.gtk_common.gtk_util].  An answer [None] is
    Python's [None]. *)
Record IconLoader : Type := {
  get_icon_filename : string -> result (option string);
  Pixbuf_new_from_file : string -> result (option Pixbuf);
  scaled_image : Pixbuf -> value -> result (option Image)
}.

(** [bool(s)] for a string or [None]. *)
Definition str_truthy (s : option string) : bool :=
  match s with
  | Some EmptyString => false
  | Some (String _ _) => true
  | None => false
  end.

Definition repr_name (s : option string) : value :=
  match s with
  | Some n => VStr n
  | None => VNone
  end.

(** Lines 146 to 154: the body of the [try]. *)
Definition get_image_body (il : IconLoader) (icon_name : option string)
    (size : value) : M (option Image) :=
  match icon_name with
  | Some name =>
      if str_truthy icon_name then
        icon_filename <- eval (get_icon_filename il name) ;;
        match icon_filename with
        | Some filename =>
            if str_truthy icon_filename then
              pixbuf <- eval (Pixbuf_new_from_file il filename) ;;
              match pixbuf with
              | Some pb => eval (scaled_image il pb size)
              | None => ret None
              end
            else ret None
        | None => ret None
        end
      else ret None
  | None => ret None
  end.

(** Lines 144 to 157.  [size] has the default value [None].  The
    traceback that [exc_info=True] adds to the log entry is not part of
    the recorded arguments. *)
Definition get_image (il : IconLoader) (icon_name : option string)
    (size : value) : M (option Image) :=
  try_except
    (get_image_body il icon_name size)
    Exception
    (fun _ =>
       log Error "get_image(%s, %s)" [repr_name icon_name; size] ;;
       ret None).

(** ** More readers of the trace *)

Definition is_menu_build (ev : Event) : bool :=
  match ev with EvMenuBuild _ _ => true | _ => false end.

Definition is_set_tooltip (ev : Event) : bool :=
  match ev with EvSetTooltip _ _ => true | _ => false end.

Definition is_error_log (ev : Event) : bool :=
  match ev with EvLog Error _ _ => true | _ => false end.

Definition not_main_quit (ev : Event) : Prop := is_main_quit ev = false.

Definition not_schedule (ev : Event) : Prop := is_schedule ev = false.

(** Neither a call of [build()] nor a tray constructor. *)
Definition before_menu_build (ev : Event) : Prop :=
  is_menu_build ev = false /\ is_tray_init ev = false.

Definition not_set_tooltip (ev : Event) : Prop := is_set_tooltip ev = false.

(** The candidates that pass the test [if x] of lines 95 and 107. *)
Fixpoint truthy_classes {A} (xs : list (option A)) : list A :=
  match xs with
  | [] => []
  | Some c :: rest => c :: truthy_classes rest
  | None :: rest => truthy_classes rest
  end.

(** The call of a tray constructor, as it shows in the trace. *)
Definition tray_attempt (menu : MenuHandle) (c : TrayClass) : Event :=
  EvTrayInit (tc_name c) (tray_args menu).

(** ** Outcomes of a menu-helper class, whatever the state of the owner *)

Definition helper_succeeds_with (c : MenuHelperClass) (mh : MenuHelper)
    : Prop :=
  forall self, mhc_new c self = Returns mh.

Definition helper_fails (c : MenuHelperClass) : Prop :=
  forall self, exists e,
    mhc_new c self = Raises e /\ isinstance e Exception = true.

Definition helper_caught (c : MenuHelperClass) : Prop :=
  forall self e, mhc_new c self = Raises e -> isinstance e Exception = true.

Definition helper_never_returns (c : MenuHelperClass) : Prop :=
  forall self, returned (mhc_new c self) = false.

Definition with_menu_helper (a : FakeApplication) (mh : MenuHelper)
    : FakeApplication :=
  {| client := client a; menu_helper := Some mh; tray := tray a |}.

(** ** Sequences of events *)




Definition is_exit_request (ev : TrayEvent) : bool :=
  match ev with ExitRequest _ => true | _ => false end.

Definition exit_requests (evs : list TrayEvent) : nat :=
  List.length (filter is_exit_request evs).

(** ** More sample collaborators *)

Definition keyboard_interrupt : exn := mkExn KeyboardInterrupt "".

Definition bad_helper (name : string) : MenuHelperClass := {|
  mhc_name := name;
  mhc_new := fun _ => Raises (runtime_error "no menu")
|}.

(** A helper whose [build()] raises. *)
Definition helper_without_menu (name : string) : MenuHelperClass := {|
  mhc_name := name;
  mhc_new := fun _ =>
    Returns {| mh_name := name; mh_truthy := true;
               mh_build := Raises (runtime_error "cannot build the menu") |}
|}.

(** A tray class interrupted from the keyboard while it starts. *)
Definition interrupted_tray (name : string) : TrayClass := {|
  tc_name := name;
  tc_new := fun _ _ => Raises keyboard_interrupt
|}.

(** A tray that starts and then refuses its tooltip. *)
Definition tray_without_tooltip (name : string) : TrayClass := {|
  tc_name := name;
  tc_new := fun _ _ =>
    Returns {| th_name := name;
               th_set_tooltip := fun _ => Raises (runtime_error "no tooltip");
               th_get_geometry := Returns (0, 0, 24, 24) |}
|}.

(** The platform's menu helper and the GTK one both work. *)
Definition platform_two_helpers : Platform := {|
  get_native_tray_menu_helper_class := Returns (Some (good_helper "native" 2));
  import_GTK3TrayMenu := Returns (good_helper "GTK3TrayMenu" 1);
  get_native_tray_classes := Returns [Some (good_tray "native")];
  import_GTKStatusIconTray := Returns (good_tray "GTKStatusIconTray")
|}.

(** No menu helper works. *)
Definition platform_no_helper : Platform := {|
  get_native_tray_menu_helper_class := Returns (Some (bad_helper "native"));
  import_GTK3TrayMenu := Returns (bad_helper "GTK3TrayMenu");
  get_native_tray_classes := Returns [Some (good_tray "native")];
  import_GTKStatusIconTray := Returns (good_tray "GTKStatusIconTray")
|}.

(** The menu helper starts, its menu cannot be built. *)
Definition platform_no_menu : Platform := {|
  get_native_tray_menu_helper_class := Returns None;
  import_GTK3TrayMenu := Returns (helper_without_menu "GTK3TrayMenu");
  get_native_tray_classes := Returns [Some (good_tray "native")];
  import_GTKStatusIconTray := Returns (good_tray "GTKStatusIconTray")
|}.

(** The status-icon module is not installed. *)
Definition platform_no_statusicon : Platform := {|
  get_native_tray_menu_helper_class := Returns None;
  import_GTK3TrayMenu := Returns (good_helper "GTK3TrayMenu" 1);
  get_native_tray_classes := Returns [Some (good_tray "native")];
  import_GTKStatusIconTray :=
    Raises (import_error "xpra.client.gtk_base.statusicon_tray")
|}.

(** The status-icon module is there and fails while it loads. *)
Definition platform_broken_statusicon : Platform := {|
  get_native_tray_menu_helper_class := Returns None;
  import_GTK3TrayMenu := Returns (good_helper "GTK3TrayMenu" 1);
  get_native_tray_classes := Returns [Some (good_tray "native")];
  import_GTKStatusIconTray := Raises (runtime_error "Gtk is not available")
|}.

(** The only tray that starts refuses its tooltip. *)
Definition platform_no_tooltip : Platform := {|
  get_native_tray_menu_helper_class := Returns None;
  import_GTK3TrayMenu := Returns (good_helper "GTK3TrayMenu" 1);
  get_native_tray_classes := Returns [Some (tray_without_tooltip "native")];
  import_GTKStatusIconTray := Returns (bad_tray "GTKStatusIconTray")
|}.

(** Every icon is found, loaded and scaled. *)
Definition good_loader : IconLoader := {|
  get_icon_filename := fun name => Returns (Some ("/usr/share/xpra/icons/" ++ name ++ ".png")%string);
  Pixbuf_new_from_file := fun _ => Returns (Some (PixbufHandle 1));
  scaled_image := fun _ _ => Returns (Some (ImageHandle 1))
|}.

(** The icon file is found and cannot be read. *)
Definition unreadable_loader : IconLoader := {|
  get_icon_filename := fun name => Returns (Some ("/usr/share/xpra/icons/" ++ name ++ ".png")%string);
  Pixbuf_new_from_file := fun _ => Raises (runtime_error "Failed to open file");
  scaled_image := fun _ _ => Returns (Some (ImageHandle 1))
|}.

(** The lookup of the icon is interrupted from the keyboard. *)
Definition interrupted_loader : IconLoader := {|
  get_icon_filename := fun _ => Raises keyboard_interrupt;
  Pixbuf_new_from_file := fun _ => Returns (Some (PixbufHandle 1));
  scaled_image := fun _ _ => Returns (Some (ImageHandle 1))
|}.

(** Line 116. *)
Definition set_tray_tooltip : M unit :=
  t <- getattr "tray" tray ;;
  emit (EvSetTooltip (th_name t) "Test System Tray") ;;
  eval (th_set_tooltip t "Test System Tray").

(** * Properties *)

(** ** The monad *)

Lemma bind_unfold {A B} (c : M A) (k : A -> M B) (w : World) :
  bind c k w = match c w with
               | (w', Returns a) => k a w'
               | (w', Raises e) => (w', Raises e)
               end.
Proof. reflexivity. Qed.

Lemma bind_returns {A B} (c : M A) (k : A -> M B) w w1 a :
  c w = (w1, Returns a) -> bind c k w = k a w1.
Proof. intros H. rewrite bind_unfold, H. reflexivity. Qed.

Lemma bind_raises {A B} (c : M A) (k : A -> M B) w w1 e :
  c w = (w1, Raises e) -> bind c k w = (w1, Raises e).
Proof. intros H. rewrite bind_unfold, H. reflexivity. Qed.

Lemma bind_returns_inv {A B} (c : M A) (k : A -> M B) w w' b :
  bind c k w = (w', Returns b) ->
  exists w1 a, c w = (w1, Returns a) /\ k a w1 = (w', Returns b).
Proof.
  rewrite bind_unfold. destruct (c w) as [w1 [a | e]]; intros H.
  - exists w1, a. split; [reflexivity | exact H].
  - discriminate H.
Qed.

(** ** Relations kept by every step

    A relation between the world before and the world after that is
    reflexive and transitive is kept by a computation as soon as each of
    its steps keeps it. *)

Section Frame.

Variable R : World -> World -> Prop.
Hypothesis R_refl : forall w, R w w.
Hypothesis R_trans : forall w1 w2 w3, R w1 w2 -> R w2 w3 -> R w1 w3.

Lemma keeps_ret {A} (a : A) : keeps R (ret a).
Proof. intros w. apply R_refl. Qed.

Lemma keeps_raise {A} (e : exn) : keeps R (@raise A e).
Proof. intros w. apply R_refl. Qed.

Lemma keeps_eval {A} (r : result A) : keeps R (eval r).
Proof. intros w. apply R_refl. Qed.

Lemma keeps_get_self : keeps R get_self.
Proof. intros w. apply R_refl. Qed.

Lemma keeps_getattr {A} name (field : FakeApplication -> option A) :
  keeps R (getattr name field).
Proof.
  intros w. unfold getattr. destruct (field (app w)); apply R_refl.
Qed.

Lemma keeps_load_local {A} name (v : option A) : keeps R (load_local name v).
Proof. destruct v; [apply keeps_ret | apply keeps_raise]. Qed.

Lemma keeps_bind {A B} (c : M A) (k : A -> M B) :
  keeps R c -> (forall a, keeps R (k a)) -> keeps R (bind c k).
Proof.
  intros Hc Hk w. rewrite bind_unfold.
  specialize (Hc w). destruct (c w) as [w1 [a | e]]; cbn in Hc.
  - eapply R_trans; [exact Hc | apply Hk].
  - exact Hc.
Qed.

Lemma keeps_try_except {A} (body : M A) cls (handler : exn -> M A) :
  keeps R body -> (forall e, keeps R (handler e)) ->
  keeps R (try_except body cls handler).
Proof.
  intros Hb Hh w. unfold try_except.
  specialize (Hb w). destruct (body w) as [w1 [a | e]]; cbn in Hb.
  - exact Hb.
  - destruct (isinstance e cls).
    + eapply R_trans; [exact Hb | apply Hh].
    + exact Hb.
Qed.

Lemma keeps_if {A} (b : bool) (c1 c2 : M A) :
  keeps R c1 -> keeps R c2 -> keeps R (if b then c1 else c2).
Proof. destruct b; trivial. Qed.

Lemma keeps_getattr_client {A} name (field : MockClientState -> A) :
  keeps R (getattr_client name field).
Proof.
  unfold getattr_client. apply keeps_bind.
  - apply keeps_getattr.
  - intros cs. apply keeps_ret.
Qed.

End Frame.

(** Tries [leaf] on each step, and the structural rules on what [leaf]
    does not close: the steps that write are those [leaf] knows. *)
Ltac frame_steps leaf Hrefl Htrans :=
  repeat first
    [ solve [leaf]
    | apply (keeps_ret _ Hrefl)
    | apply (keeps_raise _ Hrefl)
    | apply (keeps_eval _ Hrefl)
    | apply (keeps_get_self _ Hrefl)
    | apply (keeps_getattr _ Hrefl)
    | apply (keeps_load_local _ Hrefl)
    | apply (keeps_getattr_client _ Hrefl Htrans)
    | apply keeps_if
    | apply (keeps_try_except _ Htrans); [ | intro ]
    | apply (keeps_bind _ Htrans); [ | intro ] ].

(** *** Attributes that a step leaves alone *)

Lemma same_app_refl w : same_app w w.
Proof. reflexivity. Qed.

Lemma same_app_trans w1 w2 w3 : same_app w1 w2 -> same_app w2 w3 -> same_app w1 w3.
Proof. unfold same_app. congruence. Qed.

Lemma same_client_refl w : same_client w w.
Proof. reflexivity. Qed.

Lemma same_client_trans w1 w2 w3 :
  same_client w1 w2 -> same_client w2 w3 -> same_client w1 w3.
Proof. unfold same_client. congruence. Qed.

Lemma same_tray_refl w : same_tray w w.
Proof. reflexivity. Qed.

Lemma same_tray_trans w1 w2 w3 :
  same_tray w1 w2 -> same_tray w2 w3 -> same_tray w1 w3.
Proof. unfold same_tray. congruence. Qed.

Lemma emit_same_app ev : keeps same_app (emit ev).
Proof. intros w. reflexivity. Qed.

Lemma log_same_app lvl fmt args : keeps same_app (log lvl fmt args).
Proof. apply emit_same_app. Qed.

Lemma same_app_client {A} (c : M A) : keeps same_app c -> keeps same_client c.
Proof. intros H w. unfold same_client. rewrite (H w). reflexivity. Qed.

Lemma same_app_tray {A} (c : M A) : keeps same_app c -> keeps same_tray c.
Proof. intros H w. unfold same_tray. rewrite (H w). reflexivity. Qed.

Lemma set_menu_helper_same_client mh : keeps same_client (set_menu_helper mh).
Proof. intros w. reflexivity. Qed.

Lemma set_menu_helper_same_tray mh : keeps same_tray (set_menu_helper mh).
Proof. intros w. reflexivity. Qed.

Lemma set_tray_same_client t : keeps same_client (set_tray t).
Proof. intros w. reflexivity. Qed.

Ltac same_client_leaf :=
  first [ apply same_app_client; first [apply emit_same_app | apply log_same_app]
        | apply set_menu_helper_same_client
        | apply set_tray_same_client
        | assumption ].

Ltac same_tray_leaf :=
  first [ apply same_app_tray; first [apply emit_same_app | apply log_same_app]
        | apply set_menu_helper_same_tray
        | assumption ].

Ltac same_app_leaf :=
  first [ apply emit_same_app | apply log_same_app | assumption ].

Ltac same_client_steps :=
  frame_steps same_client_leaf same_client_refl same_client_trans.
Ltac same_tray_steps :=
  frame_steps same_tray_leaf same_tray_refl same_tray_trans.
Ltac same_app_steps :=
  frame_steps same_app_leaf same_app_refl same_app_trans.

Lemma menu_helper_loop_same_client xs : keeps same_client (menu_helper_loop xs).
Proof.
  induction xs as [| [c |] rest IH]; cbn [menu_helper_loop];
    unfold try_menu_helper; same_client_steps.
Qed.

Lemma menu_helper_loop_same_tray xs : keeps same_tray (menu_helper_loop xs).
Proof.
  induction xs as [| [c |] rest IH]; cbn [menu_helper_loop];
    unfold try_menu_helper; same_tray_steps.
Qed.

Lemma tray_loop_same_client menu xs : keeps same_client (tray_loop menu xs).
Proof.
  induction xs as [| [c |] rest IH]; cbn [tray_loop];
    unfold try_tray; same_client_steps.
Qed.

Lemma build_menu_same_client p : keeps same_client (build_menu p).
Proof.
  pose proof menu_helper_loop_same_client as Hloop.
  unfold build_menu, select_menu_helper, import_GTKTrayMenu.
  frame_steps ltac:(first [apply Hloop | same_client_leaf])
    same_client_refl same_client_trans.
Qed.

Lemma build_menu_same_tray p : keeps same_tray (build_menu p).
Proof.
  pose proof menu_helper_loop_same_tray as Hloop.
  unfold build_menu, select_menu_helper, import_GTKTrayMenu.
  frame_steps ltac:(first [apply Hloop | same_tray_leaf])
    same_tray_refl same_tray_trans.
Qed.

Lemma tray_candidates_same_app p : keeps same_app (tray_candidates p).
Proof. unfold tray_candidates, import_statusicon_tray. same_app_steps. Qed.

Lemma attach_tray_same_client p menu : keeps same_client (attach_tray p menu).
Proof.
  pose proof (same_app_client _ (tray_candidates_same_app p)) as Hc.
  pose proof (tray_loop_same_client menu) as Hloop.
  unfold attach_tray.
  frame_steps ltac:(first [apply Hc | apply Hloop | same_client_leaf])
    same_client_refl same_client_trans.
Qed.

(** ** The client state *)

Lemma assign_client_state_new_object :
  assign_client_state new_object = (fields_assigned, Returns tt).
Proof. reflexivity. Qed.

Lemma construct_unfold p :
  construct p = bind (build_menu p) (attach_tray p) fields_assigned.
Proof. reflexivity. Qed.

Lemma construct_client p :
  client (app (fst (construct p))) = Some mock_client_state.
Proof.
  rewrite construct_unfold.
  assert (H : keeps same_client (bind (build_menu p) (attach_tray p))).
  { apply (keeps_bind _ same_client_trans).
    - apply build_menu_same_client.
    - intros menu. apply attach_tray_same_client. }
  rewrite (H fields_assigned). reflexivity.
Qed.

(** C8.  Whatever the platform answers, and whether or not the
    constructor completes, the object holds the client state of lines 22
    to 89, in which [server_encodings] is not empty and starts with the
    value of [encoding]. *)
Theorem server_encodings_head_is_encoding (p : Platform) :
  exists cs,
    client (app (fst (construct p))) = Some cs
    /\ server_encodings cs = ["png"; "rgb"]
    /\ server_encodings cs <> []
    /\ hd_error (server_encodings cs) = Some (encoding cs).
Proof.
  exists mock_client_state. split; [apply construct_client |].
  split; [reflexivity |]. split; [discriminate | reflexivity].
Qed.

(** ** The import of the GTK menu class *)

(** C10.  When the import of [GTK3TrayMenu] raises an [ImportError],
    the constructor logs a warning and then raises [UnboundLocalError],
    a subclass of [NameError], for the local name [GTKTrayMenu]: no
    menu helper is tried and none is bound, even when the platform
    offers a native menu-helper class. *)
Theorem failed_menu_import_raises_NameError (p : Platform) (e : exn)
    (native : option MenuHelperClass) :
  import_GTK3TrayMenu p = Raises e ->
  isinstance e ImportError = true ->
  get_native_tray_menu_helper_class p = Returns native ->
  construct p =
    ({| app := app fields_assigned;
        events := [EvLog Warn "failed to load GTK tray menu class: %s" [VExn e]] |},
     Raises (unbound_local "GTKTrayMenu"))
  /\ isinstance (unbound_local "GTKTrayMenu") NameError = true
  /\ menu_helper (app (fst (construct p))) = None
  /\ tray (app (fst (construct p))) = None
  /\ existsb is_menu_helper_init (events (fst (construct p))) = false.
Proof.
  intros Himp Hcls Hnat.
  assert (Hrun : construct p =
    ({| app := app fields_assigned;
        events := [EvLog Warn "failed to load GTK tray menu class: %s" [VExn e]] |},
     Raises (unbound_local "GTKTrayMenu"))).
  { rewrite construct_unfold.
    unfold build_menu, select_menu_helper, import_GTKTrayMenu.
    rewrite !bind_unfold. unfold try_except. rewrite bind_unfold.
    unfold eval at 1. rewrite Himp, Hcls.
    unfold log, emit, ret. cbn [events app fields_assigned].
    unfold eval. rewrite Hnat. reflexivity. }
  rewrite Hrun. repeat split; reflexivity.
Qed.

Lemma failed_menu_import_raises_NameError_witness :
  snd (construct platform_no_gtk_menu) = Raises (unbound_local "GTKTrayMenu").
Proof.
  pose proof (failed_menu_import_raises_NameError platform_no_gtk_menu
    (import_error "xpra.client.gtk3.tray_menu")
    (Some (good_helper "native" 2))
    eq_refl eq_refl eq_refl) as [H _].
  rewrite H. reflexivity.
Defined.

(** ** The click callback *)

Lemma skipn_length_app {A} (l added : list A) :
  skipn (List.length l) (l ++ added) = added.
Proof. induction l as [| x l IH]; [reflexivity | exact IH]. Qed.

Lemma new_events_appended {A} (c : M A) (w : World) a r added :
  c w = ({| app := a; events := events w ++ added |}, r) ->
  new_events c w = added.
Proof.
  intros H. unfold new_events. rewrite H. cbn [fst events].
  apply skipn_length_app.
Qed.

(** A click that matches one of the two rules, on an object that has
    its client state and its menu helper. *)
Lemma xpra_tray_click_scheduled (w : World) (cs : MockClientState)
    (mh : MenuHelper) (button : Z) (pressed : bool) (time : Z) (m : MenuMethod) :
  client (app w) = Some cs ->
  menu_helper (app w) = Some mh ->
  (button = 1 /\ pressed = true /\ m = activate)
  \/ (button = 3 /\ pressed = false /\ m = popup) ->
  xpra_tray_click button pressed time w =
    ({| app := app w;
        events := events w ++
          [EvLog Debug "xpra_tray_click(%s, %s, %s)"
             [VInt button; VBool pressed; VInt time];
           EvSchedule (idle_add cs) m button time] |},
     Returns tt).
Proof.
  intros Hc Hm Hrule.
  unfold xpra_tray_click, log, getattr_client, getattr, emit, bind, ret.
  destruct Hrule as [(-> & -> & ->) | (-> & -> & ->)];
    cbn [Z.eqb Pos.eqb andb negb app events];
    rewrite Hc; cbn [app events]; rewrite Hm; cbn [app events];
    rewrite <- app_assoc; reflexivity.
Qed.

(** A click that matches neither rule is logged and nothing else. *)
Lemma xpra_tray_click_ignored (w : World) (button : Z) (pressed : bool)
    (time : Z) :
  (button =? 1) && pressed = false ->
  (button =? 3) && negb pressed = false ->
  xpra_tray_click button pressed time w =
    ({| app := app w;
        events := events w ++
          [EvLog Debug "xpra_tray_click(%s, %s, %s)"
             [VInt button; VBool pressed; VInt time]] |},
     Returns tt).
Proof.
  intros H1 H3.
  unfold xpra_tray_click, log. rewrite bind_unfold. unfold emit at 1.
  rewrite H1, H3. reflexivity.
Qed.

(** C3.  On a constructed application (client state assigned, menu
    helper bound), a click with button 1, pressed, at time [t] hands
    [menu_helper.activate] with [(1, t)] to [GLib.idle_add] exactly
    once, hands [menu_helper.popup] to it not at all, and returns. *)
Theorem primary_press_schedules_activate (w : World) (mh : MenuHelper) (t : Z) :
  client (app w) = Some mock_client_state ->
  menu_helper (app w) = Some mh ->
  scheduled activate (new_events (xpra_tray_click 1 true t) w) = [(1, t)]
  /\ scheduled popup (new_events (xpra_tray_click 1 true t) w) = []
  /\ List.length (filter is_schedule (new_events (xpra_tray_click 1 true t) w)) = 1%nat
  /\ snd (xpra_tray_click 1 true t w) = Returns tt.
Proof.
  intros Hc Hm.
  pose proof (xpra_tray_click_scheduled w mock_client_state mh 1 true t activate
                Hc Hm (or_introl (conj eq_refl (conj eq_refl eq_refl)))) as Hrun.
  rewrite (new_events_appended _ _ _ _ _ Hrun), Hrun.
  repeat split; reflexivity.
Qed.

(** C4.  On a constructed application, a click with button 3,
    released, at time [t] hands [menu_helper.popup] with [(3, t)] to
    [GLib.idle_add] exactly once, hands [menu_helper.activate] to it not
    at all, and returns. *)
Theorem secondary_release_schedules_popup (w : World) (mh : MenuHelper) (t : Z) :
  client (app w) = Some mock_client_state ->
  menu_helper (app w) = Some mh ->
  scheduled popup (new_events (xpra_tray_click 3 false t) w) = [(3, t)]
  /\ scheduled activate (new_events (xpra_tray_click 3 false t) w) = []
  /\ List.length (filter is_schedule (new_events (xpra_tray_click 3 false t) w)) = 1%nat
  /\ snd (xpra_tray_click 3 false t w) = Returns tt.
Proof.
  intros Hc Hm.
  pose proof (xpra_tray_click_scheduled w mock_client_state mh 3 false t popup
                Hc Hm (or_intror (conj eq_refl (conj eq_refl eq_refl)))) as Hrun.
  rewrite (new_events_appended _ _ _ _ _ Hrun), Hrun.
  repeat split; reflexivity.
Qed.

Lemma click_schedules_only_on_match (w : World) (button : Z) (pressed : bool)
    (time : Z) :
  click_rule_matches button pressed = false ->
  filter is_schedule (new_events (xpra_tray_click button pressed time) w) = []
  /\ snd (xpra_tray_click button pressed time w) = Returns tt.
Proof.
  unfold click_rule_matches. intros H.
  apply orb_false_iff in H. destruct H as [H1 H3].
  pose proof (xpra_tray_click_ignored w button pressed time H1 H3) as Hrun.
  rewrite (new_events_appended _ _ _ _ _ Hrun), Hrun.
  split; reflexivity.
Qed.

(** C5.  A click with button 1 released, or with button 3 pressed,
    schedules nothing, whatever the state of the object; and whenever a
    click schedules something, its arguments are button 1 pressed or
    button 3 released. *)
Theorem unmatched_click_schedules_nothing (w : World) (t : Z) :
  (filter is_schedule (new_events (xpra_tray_click 1 false t) w) = []
   /\ snd (xpra_tray_click 1 false t w) = Returns tt)
  /\ (filter is_schedule (new_events (xpra_tray_click 3 true t) w) = []
      /\ snd (xpra_tray_click 3 true t w) = Returns tt)
  /\ forall button pressed,
       implb (existsb is_schedule (new_events (xpra_tray_click button pressed t) w))
             (click_rule_matches button pressed) = true.
Proof.
  split; [apply click_schedules_only_on_match; reflexivity |].
  split; [apply click_schedules_only_on_match; reflexivity |].
  intros button pressed.
  destruct (click_rule_matches button pressed) eqn:Hrule.
  - apply implb_true_r.
  - destruct (click_schedules_only_on_match w button pressed t Hrule) as [Hnone _].
    destruct (existsb is_schedule _) eqn:Hex; [| reflexivity].
    apply existsb_exists in Hex. destruct Hex as (ev & Hin & Hev).
    assert (Hf : In ev (filter is_schedule
                  (new_events (xpra_tray_click button pressed t) w))).
    { apply filter_In. split; assumption. }
    rewrite Hnone in Hf. destruct Hf.
Qed.

(** ** The trace only grows *)

Section Trace.

(** What is allowed to be added. *)
Variable P : Event -> Prop.

Lemma appends_refl w : appends P w w.
Proof. exists []. split; [symmetry; apply app_nil_r | constructor]. Qed.

Lemma appends_trans w1 w2 w3 : appends P w1 w2 -> appends P w2 w3 -> appends P w1 w3.
Proof.
  intros (a1 & E1 & F1) (a2 & E2 & F2). exists (a1 ++ a2). split.
  - rewrite E2, E1. symmetry. apply app_assoc.
  - apply Forall_app. split; assumption.
Qed.

Lemma emit_appends ev : P ev -> keeps (appends P) (emit ev).
Proof.
  intros H w. exists [ev]. split; [reflexivity |].
  constructor; [exact H | constructor].
Qed.

Lemma set_self_appends a : keeps (appends P) (set_self a).
Proof.
  intros w. exists []. split; [symmetry; apply app_nil_r | constructor].
Qed.

Lemma assign_client_state_appends : keeps (appends P) assign_client_state.
Proof. intros w. apply (set_self_appends _ w). Qed.

Lemma set_menu_helper_appends mh : keeps (appends P) (set_menu_helper mh).
Proof. intros w. apply (set_self_appends _ w). Qed.

Lemma set_tray_appends t : keeps (appends P) (set_tray t).
Proof. intros w. apply (set_self_appends _ w). Qed.

End Trace.

(** The steps that write to the trace are [emit] and [log]; [tac]
    proves that the event is allowed. *)
Ltac appends_leaf tac :=
  first [ apply emit_appends; tac
        | unfold log; apply emit_appends; tac
        | apply set_menu_helper_appends
        | apply set_tray_appends
        | apply assign_client_state_appends
        | assumption ].

Ltac appends_steps P tac :=
  frame_steps ltac:(appends_leaf tac) (appends_refl P) (appends_trans P).

Lemma deliver_appends ev : keeps (appends any_event) (deliver ev).
Proof.
  destruct ev; cbn [deliver];
    unfold xpra_tray_click, xpra_tray_mouseover, xpra_tray_exit, xpra_tray_geometry;
    appends_steps any_event ltac:(exact I).
Qed.

Lemma deliver_same_app ev : keeps same_app (deliver ev).
Proof.
  destruct ev; cbn [deliver];
    unfold xpra_tray_click, xpra_tray_mouseover, xpra_tray_exit, xpra_tray_geometry;
    same_app_steps.
Qed.

Lemma quit_calls_app evs added :
  quit_calls (evs ++ added) = (quit_calls evs + quit_calls added)%nat.
Proof. unfold quit_calls. rewrite filter_app. apply length_app. Qed.

(** ** Exceptions in the callbacks *)






(** ** The exit request *)

(** C9, as the code has it.  Every exit request is logged, calls
    [Gtk.main_quit()] exactly once and returns, whatever happened
    before: the callback keeps no record of an earlier request, so a
    second request calls [Gtk.main_quit()] again.  After an exit request
    the quit is requested; once requested it stays requested through
    every later event, no callback lowers the number of calls made so
    far, and no callback changes the application object. *)
Theorem exit_request_calls_main_quit (args : list value) (w : World) :
  xpra_tray_exit args w =
    ({| app := app w;
        events := events w ++ [EvLog Debug "xpra_tray_exit%s" [VTuple args];
                               EvMainQuit] |},
     Returns tt)
  /\ quit_calls (events (fst (xpra_tray_exit args w))) = S (quit_calls (events w))
  /\ quit_requested (fst (deliver (ExitRequest args) w)) = true
  /\ (forall ev,
        implb (quit_requested w) (quit_requested (fst (deliver ev w))) = true)
  /\ (forall ev,
        (quit_calls (events w) <= quit_calls (events (fst (deliver ev w))))%nat)
  /\ (forall ev, app (fst (deliver ev w)) = app w).
Proof.
  assert (Hrun : xpra_tray_exit args w =
    ({| app := app w;
        events := events w ++ [EvLog Debug "xpra_tray_exit%s" [VTuple args];
                               EvMainQuit] |},
     Returns tt)).
  { unfold xpra_tray_exit, log, emit, bind. cbn [app events].
    rewrite <- app_assoc. reflexivity. }
  split; [exact Hrun |]. split.
  { rewrite Hrun. cbn [fst events]. rewrite quit_calls_app.
    cbn. apply Nat.add_1_r. }
  split.
  { cbn [deliver]. rewrite Hrun. unfold quit_requested. cbn [fst events].
    rewrite existsb_app. apply orb_true_r. }
  split; [| split]; intros ev.
  - destruct (deliver_appends ev w) as (added & E & _).
    unfold quit_requested. rewrite E, existsb_app.
    destruct (existsb is_main_quit (events w)); reflexivity.
  - destruct (deliver_appends ev w) as (added & E & _).
    rewrite E, quit_calls_app. apply Nat.le_add_r.
  - apply deliver_same_app.
Qed.

(** C9, as stated, fails: on a running application the second exit
    request is logged and calls [Gtk.main_quit()] a second time, so the
    world after it differs from the world before it. *)
Lemma second_exit_request_is_not_a_noop :
  quit_calls (events (fst (deliver_all [ExitRequest []] world_running))) = 1%nat
  /\ quit_calls (events (fst (deliver_all [ExitRequest []; ExitRequest []]
                                world_running))) = 2%nat
  /\ fst (deliver (ExitRequest []) (fst (deliver (ExitRequest []) world_running)))
     <> fst (deliver (ExitRequest []) world_running).
Proof.
  split; [reflexivity |]. split; [reflexivity |].
  intros H. apply (f_equal (fun w => quit_calls (events w))) in H.
  vm_compute in H. discriminate H.
Qed.

(** ** The tray loop *)

Lemma try_tray_returns menu x w h :
  tc_new x (app w) (tray_args menu) = Returns h ->
  try_tray menu x w =
    ({| app := with_tray (app w) h;
        events := events w ++ [EvTrayInit (tc_name x) (tray_args menu)] |},
     Returns tt).
Proof.
  intros H. unfold try_tray, try_except, bind, get_self, emit, eval, set_tray, set_self.
  cbn [app events]. rewrite H. reflexivity.
Qed.

Lemma try_tray_raises menu x w e :
  tc_new x (app w) (tray_args menu) = Raises e ->
  try_tray menu x w =
    if isinstance e Exception
    then ({| app := app w;
             events := events w ++
               [EvTrayInit (tc_name x) (tray_args menu);
                EvLog Warn "failed to create tray %s: %s" [VStr (tc_name x); VExn e]] |},
          Returns tt)
    else ({| app := app w;
             events := events w ++ [EvTrayInit (tc_name x) (tray_args menu)] |},
          Raises e).
Proof.
  intros H. unfold try_tray, try_except, bind, get_self, emit, eval, log, emit.
  cbn [app events]. rewrite H.
  destruct (isinstance e Exception); [| reflexivity].
  cbn [app events]. rewrite <- app_assoc. reflexivity.
Qed.

Lemma tray_loop_cons menu x rest w :
  tray_loop menu (x :: rest) w =
    bind (match x with Some c => try_tray menu c | None => ret tt end)
         (fun _ => tray_loop menu rest) w.
Proof. reflexivity. Qed.

Lemma tray_loop_app menu l1 l2 w :
  tray_loop menu (l1 ++ l2) w =
    bind (tray_loop menu l1) (fun _ => tray_loop menu l2) w.
Proof.
  revert w. induction l1 as [| x l1 IH]; intros w.
  - reflexivity.
  - rewrite <- app_comm_cons, (bind_unfold (tray_loop menu (x :: l1))).
    rewrite !tray_loop_cons, !bind_unfold.
    destruct (match x with Some c => try_tray menu c | None => ret tt end w)
      as [w1 [[] | e]]; [| reflexivity].
    rewrite IH, bind_unfold. reflexivity.
Qed.

(** When every exception is caught, the loop reaches its end. *)
Lemma tray_loop_caught_returns menu l w :
  (forall c, In (Some c) l -> tray_caught menu c) ->
  snd (tray_loop menu l w) = Returns tt.
Proof.
  revert w. induction l as [| x l IH]; intros w Hc; [reflexivity |].
  rewrite tray_loop_cons, bind_unfold.
  assert (Hl : forall c, In (Some c) l -> tray_caught menu c).
  { intros c Hin. apply Hc. right. exact Hin. }
  destruct x as [c |]; [| apply IH; exact Hl].
  destruct (tc_new c (app w) (tray_args menu)) as [h | e] eqn:Hnew.
  - rewrite (try_tray_returns _ _ _ _ Hnew). apply IH; exact Hl.
  - rewrite (try_tray_raises _ _ _ _ Hnew).
    rewrite (Hc c (or_introl eq_refl) (app w) e Hnew). apply IH; exact Hl.
Qed.

(** Constructors that raise leave the [tray] attribute as it was. *)
Lemma tray_loop_never_returns_same_tray menu l :
  (forall c, In (Some c) l -> tray_never_returns c) ->
  keeps same_tray (tray_loop menu l).
Proof.
  induction l as [| x l IH]; intros Hn w; [reflexivity |].
  rewrite tray_loop_cons, bind_unfold.
  assert (Hl : forall c, In (Some c) l -> tray_never_returns c).
  { intros c Hin. apply Hn. right. exact Hin. }
  destruct x as [c |]; [| apply IH; exact Hl].
  pose proof (Hn c (or_introl eq_refl) (app w) (tray_args menu)) as Hr.
  destruct (tc_new c (app w) (tray_args menu)) as [h | e] eqn:Hnew;
    [discriminate Hr |].
  rewrite (try_tray_raises _ _ _ _ Hnew).
  destruct (isinstance e Exception); [| reflexivity].
  eapply same_tray_trans; [| apply IH; exact Hl]. reflexivity.
Qed.

(** The loop binds the handle of the last constructor that returns. *)
Lemma tray_loop_binds_last menu l1 c h l2 w :
  (forall c', In (Some c') l1 -> tray_caught menu c') ->
  tray_succeeds_with menu c h ->
  (forall c', In (Some c') l2 -> tray_never_returns c') ->
  tray (app (fst (tray_loop menu (l1 ++ Some c :: l2) w))) = Some h.
Proof.
  intros H1 Hc H2.
  rewrite tray_loop_app, bind_unfold.
  pose proof (tray_loop_caught_returns menu l1 w H1) as Hret.
  destruct (tray_loop menu l1 w) as [w1 r1]. cbn [snd] in Hret. subst r1.
  rewrite tray_loop_cons, bind_unfold, (try_tray_returns _ _ _ _ (Hc (app w1))).
  rewrite (tray_loop_never_returns_same_tray menu l2 H2). reflexivity.
Qed.

Lemma tray_candidates_world p w :
  tray_candidates p w = (w, snd (tray_candidates p new_object)).
Proof.
  unfold tray_candidates, import_statusicon_tray, try_except, bind, eval, ret.
  destruct (import_GTKStatusIconTray p) as [c | e].
  - destruct (get_native_tray_classes p); reflexivity.
  - destruct (isinstance e ImportError); [| reflexivity].
    destruct (get_native_tray_classes p); reflexivity.
Qed.

(** What line 116 does leaves the attributes alone. *)
Lemma set_tooltip_same_app :
  keeps same_app
    (t <- getattr "tray" tray ;;
     emit (EvSetTooltip (th_name t) "Test System Tray") ;;
     eval (th_set_tooltip t "Test System Tray")).
Proof. same_app_steps. Qed.

Lemma attach_tray_unfold p menu w :
  attach_tray p menu w =
    match snd (tray_candidates p new_object) with
    | Returns xs =>
        bind (tray_loop menu xs)
          (fun _ =>
             t <- getattr "tray" tray ;;
             emit (EvSetTooltip (th_name t) "Test System Tray") ;;
             eval (th_set_tooltip t "Test System Tray")) w
    | Raises e => (w, Raises e)
    end.
Proof.
  unfold attach_tray. rewrite bind_unfold, tray_candidates_world.
  destruct (snd (tray_candidates p new_object)); reflexivity.
Qed.

Lemma attach_tray_binds_last p menu l1 c h l2 w :
  snd (tray_candidates p new_object) = Returns (l1 ++ Some c :: l2) ->
  (forall c', In (Some c') l1 -> tray_caught menu c') ->
  tray_succeeds_with menu c h ->
  (forall c', In (Some c') l2 -> tray_never_returns c') ->
  tray (app (fst (attach_tray p menu w))) = Some h.
Proof.
  intros Hxs H1 Hc H2.
  rewrite attach_tray_unfold, Hxs.
  pose proof (tray_loop_binds_last menu l1 c h l2 w H1 Hc H2) as Hloop.
  pose proof (keeps_bind same_tray same_tray_trans
                (tray_loop menu (l1 ++ Some c :: l2))
                (fun _ =>
                   t <- getattr "tray" tray ;;
                   emit (EvSetTooltip (th_name t) "Test System Tray") ;;
                   eval (th_set_tooltip t "Test System Tray"))) as Hk.
  rewrite bind_unfold.
  destruct (tray_loop menu (l1 ++ Some c :: l2) w) as [w2 [[] | e]];
    cbn [fst] in Hloop; [| exact Hloop].
  rewrite (same_app_tray _ set_tooltip_same_app w2). exact Hloop.
Qed.

(** C1, as the code has it.  Neither loop of the constructor stops at
    a success.  When the constructor reaches the tray loop, no candidate
    before [c] raises anything but an [Exception], the constructor of
    [c] returns [h] and no candidate after [c] returns, the handle bound
    to [self.tray] at the end is [h]: the last candidate, in list order,
    whose constructor succeeds. *)
Theorem tray_bound_is_last_success (p : Platform) (w1 : World)
    (menu : MenuHandle) (l1 l2 : list (option TrayClass)) (c : TrayClass)
    (h : TrayHandle) :
  build_menu p fields_assigned = (w1, Returns menu) ->
  snd (tray_candidates p new_object) = Returns (l1 ++ Some c :: l2) ->
  (forall c', In (Some c') l1 -> tray_caught menu c') ->
  tray_succeeds_with menu c h ->
  (forall c', In (Some c') l2 -> tray_never_returns c') ->
  tray (app (fst (construct p))) = Some h.
Proof.
  intros Hmenu Hxs H1 Hc H2.
  rewrite construct_unfold, (bind_returns _ _ _ _ _ Hmenu).
  apply (attach_tray_binds_last p menu l1 c h l2 w1 Hxs H1 Hc H2).
Qed.

Lemma tray_bound_is_last_success_witness :
  snd (tray_candidates platform_two_trays new_object)
    = Returns ([Some (good_tray "native")]
               ++ Some (good_tray "GTKStatusIconTray") :: [])
  /\ tray (app (fst (construct platform_two_trays)))
     = Some (good_handle "GTKStatusIconTray").
Proof.
  split; [reflexivity |].
  apply (tray_bound_is_last_success platform_two_trays
           (fst (build_menu platform_two_trays fields_assigned)) (Menu 1)
           [Some (good_tray "native")] [] (good_tray "GTKStatusIconTray")
           (good_handle "GTKStatusIconTray")).
  - reflexivity.
  - reflexivity.
  - intros c' Hin self e He. destruct Hin as [Hin | []].
    injection Hin as <-. discriminate He.
  - intros self. reflexivity.
  - intros c' [].
Defined.

(** C1, as stated, fails: with a native tray and the status-icon tray
    both working, the first candidate whose constructor succeeds is the
    native one, the constructor completes, and the handle bound is that
    of the status-icon tray. *)
Lemma first_successful_tray_is_not_bound :
  snd (tray_candidates platform_two_trays new_object)
    = Returns [Some (good_tray "native"); Some (good_tray "GTKStatusIconTray")]
  /\ (forall m, tray_succeeds_with m (good_tray "native") (good_handle "native"))
  /\ snd (construct platform_two_trays) = Returns tt
  /\ tray (app (fst (construct platform_two_trays)))
     = Some (good_handle "GTKStatusIconTray")
  /\ tray (app (fst (construct platform_two_trays)))
     <> Some (good_handle "native").
Proof.
  split; [reflexivity |]. split; [intros m self; reflexivity |].
  split; [reflexivity |]. split; [reflexivity |].
  intros H. apply (f_equal (option_map th_name)) in H. discriminate H.
Qed.

(** ** No working tray *)




(** When the constructor reaches the tray loop and every candidate
    raises an [Exception], what ends the constructor is the
    [AttributeError] of line 116. *)
Lemma no_working_tray_raises_AttributeError p w1 menu cands :
  build_menu p fields_assigned = (w1, Returns menu) ->
  snd (tray_candidates p new_object) = Returns cands ->
  (forall c, In (Some c) cands -> tray_fails menu c) ->
  snd (construct p) = Raises (no_attribute "tray").
Proof.
  intros Hmenu Hxs Hfail.
  assert (Hcaught : forall c, In (Some c) cands -> tray_caught menu c).
  { intros c Hin self e He. destruct (Hfail c Hin self) as (e' & He' & Hcls).
    congruence. }
  assert (Htray : forall xs w,
            (forall c, In (Some c) xs -> tray_fails menu c) ->
            tray (app (fst (tray_loop menu xs w))) = tray (app w)).
  { induction xs as [| x xs IH]; intros w Hf; [reflexivity |].
    rewrite tray_loop_cons, bind_unfold.
    assert (Hxs' : forall c, In (Some c) xs -> tray_fails menu c).
    { intros c Hin. apply Hf. right. exact Hin. }
    destruct x as [c |]; [| apply IH; exact Hxs'].
    destruct (Hf c (or_introl eq_refl) (app w)) as (e & He & Hcls).
    rewrite (try_tray_raises _ _ _ _ He), Hcls, IH; [reflexivity | exact Hxs']. }
  pose proof (build_menu_same_tray p fields_assigned) as Hsame.
  rewrite Hmenu in Hsame. cbn [fst] in Hsame.
  rewrite construct_unfold, (bind_returns _ _ _ _ _ Hmenu), attach_tray_unfold, Hxs.
  rewrite bind_unfold.
  pose proof (tray_loop_caught_returns menu cands w1 Hcaught) as Hret.
  pose proof (Htray cands w1 Hfail) as Hnone.
  destruct (tray_loop menu cands w1) as [w2 r]. cbn [fst snd] in Hret, Hnone.
  subst r. unfold getattr, bind. rewrite Hnone, Hsame. reflexivity.
Qed.

(** ** The menu is built before any tray is tried *)

Lemma same_menu_helper_refl w : same_menu_helper w w.
Proof. reflexivity. Qed.

Lemma same_menu_helper_trans w1 w2 w3 :
  same_menu_helper w1 w2 -> same_menu_helper w2 w3 -> same_menu_helper w1 w3.
Proof. unfold same_menu_helper. congruence. Qed.

Lemma same_app_menu_helper {A} (c : M A) :
  keeps same_app c -> keeps same_menu_helper c.
Proof. intros H w. unfold same_menu_helper. rewrite (H w). reflexivity. Qed.

Lemma set_tray_same_menu_helper t : keeps same_menu_helper (set_tray t).
Proof. intros w. reflexivity. Qed.

Ltac same_menu_helper_leaf :=
  first [ apply same_app_menu_helper; first [apply emit_same_app | apply log_same_app]
        | apply set_tray_same_menu_helper
        | assumption ].

Lemma tray_loop_same_menu_helper menu xs :
  keeps same_menu_helper (tray_loop menu xs).
Proof.
  induction xs as [| [c |] rest IH]; cbn [tray_loop]; unfold try_tray;
    frame_steps same_menu_helper_leaf same_menu_helper_refl same_menu_helper_trans.
Qed.

Lemma attach_tray_same_menu_helper p menu :
  keeps same_menu_helper (attach_tray p menu).
Proof.
  pose proof (same_app_menu_helper _ (tray_candidates_same_app p)) as Hc.
  pose proof (tray_loop_same_menu_helper menu) as Hloop.
  unfold attach_tray.
  frame_steps ltac:(first [apply Hc | apply Hloop | same_menu_helper_leaf])
    same_menu_helper_refl same_menu_helper_trans.
Qed.

Lemma menu_helper_loop_appends xs :
  keeps (appends not_tray_init) (menu_helper_loop xs).
Proof.
  induction xs as [| [c |] rest IH]; cbn [menu_helper_loop];
    unfold try_menu_helper; appends_steps not_tray_init ltac:(reflexivity).
Qed.

Lemma select_menu_helper_appends p :
  keeps (appends not_tray_init) (select_menu_helper p).
Proof.
  pose proof menu_helper_loop_appends as Hloop.
  unfold select_menu_helper, import_GTKTrayMenu.
  frame_steps ltac:(first [apply Hloop | appends_leaf ltac:(reflexivity)])
    (appends_refl not_tray_init) (appends_trans not_tray_init).
Qed.

Lemma build_menu_appends p : keeps (appends not_tray_init) (build_menu p).
Proof.
  pose proof (select_menu_helper_appends p) as Hsel.
  unfold build_menu.
  frame_steps ltac:(first [apply Hsel | appends_leaf ltac:(reflexivity)])
    (appends_refl not_tray_init) (appends_trans not_tray_init).
Qed.

Lemma tray_loop_appends menu xs :
  keeps (appends (tray_init_with menu)) (tray_loop menu xs).
Proof.
  induction xs as [| [c |] rest IH]; cbn [tray_loop]; unfold try_tray;
    appends_steps (tray_init_with menu)
      ltac:(intros cls args Hev; first [discriminate Hev
                                       | injection Hev as _ <-; reflexivity]).
Qed.

Lemma attach_tray_appends p menu :
  keeps (appends (tray_init_with menu)) (attach_tray p menu).
Proof.
  pose proof (tray_loop_appends menu) as Hloop.
  unfold attach_tray, tray_candidates, import_statusicon_tray.
  frame_steps
    ltac:(first [apply Hloop
                | appends_leaf ltac:(intros cls args Hev; discriminate Hev)])
    (appends_refl (tray_init_with menu)) (appends_trans (tray_init_with menu)).
Qed.

(** When [build_menu] returns [m], the last thing it did was to call
    [build()] on the menu helper that is bound, which returned [m]. *)
Lemma build_menu_returns_inv p w w' m :
  build_menu p w = (w', Returns m) ->
  exists added mh,
    events w' = events w ++ added ++ [EvMenuBuild (mh_name mh) (Returns m)]
    /\ Forall not_tray_init added
    /\ menu_helper (app w') = Some mh
    /\ mh_build mh = Returns m.
Proof.
  unfold build_menu. intros H.
  apply bind_returns_inv in H. destruct H as (w0 & [] & Hsel & H).
  apply bind_returns_inv in H. destruct H as (w2 & mh & Hget & H).
  apply bind_returns_inv in H. destruct H as (w3 & [] & Hemit & H).
  destruct (select_menu_helper_appends p w) as (added & Eadd & Fadd).
  rewrite Hsel in Eadd. cbn [fst] in Eadd.
  unfold getattr in Hget. destruct (menu_helper (app w0)) as [mh0 |] eqn:Hmh;
    [| discriminate Hget].
  injection Hget as Hw2 Hmh0. subst w2 mh0.
  unfold emit in Hemit. injection Hemit as Hw3. subst w3.
  unfold eval in H. injection H as Hw' Hb. subst w'.
  exists added, mh. cbn [app events]. rewrite Hb, Eadd, <- app_assoc.
  repeat split; assumption.
Qed.

Lemma not_tray_init_no_tray_init cls args evs :
  Forall not_tray_init evs -> ~ In (EvTrayInit cls args) evs.
Proof.
  intros F Hin. rewrite Forall_forall in F. specialize (F _ Hin). discriminate F.
Qed.

(** C7.  Wherever a tray constructor is called in the trace of the
    constructor of [FakeApplication], what precedes it holds the call of
    [build()] on the bound menu helper, which returned a menu [m]; no
    tray constructor is called before that call, and the constructor in
    question is given [m], with the other arguments of line 111. *)
Theorem menu_built_before_tray_attempts (p : Platform)
    (pre post : list Event) (cls : string) (args : TrayArgs) :
  events (fst (construct p)) = pre ++ EvTrayInit cls args :: post ->
  exists mh m before between,
    pre = before ++ EvMenuBuild (mh_name mh) (Returns m) :: between
    /\ existsb is_tray_init before = false
    /\ menu_helper (app (fst (construct p))) = Some mh
    /\ mh_build mh = Returns m
    /\ ta_menu args = m
    /\ args = tray_args m.
Proof.
  rewrite construct_unfold, bind_unfold. intros Hev.
  destruct (build_menu p fields_assigned) as [w1 [m | e]] eqn:Hmenu.
  - destruct (build_menu_returns_inv _ _ _ _ Hmenu) as (added & mh & E1 & F1 & Hmh & Hb).
    cbn [events fields_assigned fst assign_client_state] in E1.
    change (events w1 = added ++ [EvMenuBuild (mh_name mh) (Returns m)]) in E1.
    destruct (attach_tray_appends p m w1) as (added2 & E2 & F2).
    pose proof (attach_tray_same_menu_helper p m w1) as Hsame.
    unfold same_menu_helper in Hsame. rewrite Hmh in Hsame.
    rewrite E2, E1, <- app_assoc in Hev. cbn [app] in Hev.
    assert (Hbefore : existsb is_tray_init added = false).
    { apply not_true_is_false. intros Hex. apply existsb_exists in Hex.
      destruct Hex as (ev & Hin & Hti). rewrite Forall_forall in F1.
      specialize (F1 ev Hin). unfold not_tray_init in F1. congruence. }
    apply app_eq_app in Hev. destruct Hev as (l & [[Ha Hp] | [Hp Ha]]).
    + (* the tray event would lie among the events of [build_menu] *)
      exfalso. apply (not_tray_init_no_tray_init cls args added F1).
      destruct l as [| x l]; [| injection Hp as <- _; rewrite Ha;
                                 apply in_or_app; right; left; reflexivity].
      discriminate Hp.
    + destruct l as [| x l].
      * discriminate Ha.
      * injection Ha as <- Ha.
        assert (Hargs : args = tray_args m).
        { rewrite Forall_forall in F2. apply (F2 (EvTrayInit cls args)) with (cls := cls).
          - rewrite Ha. apply in_or_app. right. left. reflexivity.
          - reflexivity. }
        exists mh, m, added, l. rewrite Hp. repeat split; try assumption.
        rewrite Hargs. reflexivity.
  - exfalso. destruct (build_menu_appends p fields_assigned) as (added & E & F).
    rewrite Hmenu in E. cbn [fst] in E, Hev. rewrite E in Hev.
    change (added = pre ++ EvTrayInit cls args :: post) in Hev.
    apply (not_tray_init_no_tray_init cls args added F).
    rewrite Hev. apply in_or_app. right. left. reflexivity.
Qed.

Lemma menu_built_before_tray_attempts_witness :
  events (fst (construct platform_two_trays))
    = [EvMenuHelperInit "GTK3TrayMenu";
       EvMenuBuild "GTK3TrayMenu" (Returns (Menu 1));
       EvTrayInit "native" (tray_args (Menu 1))]
      ++ EvTrayInit "GTKStatusIconTray" (tray_args (Menu 1))
         :: [EvSetTooltip "GTKStatusIconTray" "Test System Tray"]
  /\ exists mh m before between,
       [EvMenuHelperInit "GTK3TrayMenu";
        EvMenuBuild "GTK3TrayMenu" (Returns (Menu 1));
        EvTrayInit "native" (tray_args (Menu 1))]
         = before ++ EvMenuBuild (mh_name mh) (Returns m) :: between
       /\ existsb is_tray_init before = false
       /\ menu_helper (app (fst (construct platform_two_trays))) = Some mh
       /\ mh_build mh = Returns m
       /\ ta_menu (tray_args (Menu 1)) = m
       /\ tray_args (Menu 1) = tray_args m.
Proof.
  split; [reflexivity |].
  apply (menu_built_before_tray_attempts platform_two_trays
           [EvMenuHelperInit "GTK3TrayMenu";
            EvMenuBuild "GTK3TrayMenu" (Returns (Menu 1));
            EvTrayInit "native" (tray_args (Menu 1))]
           [EvSetTooltip "GTKStatusIconTray" "Test System Tray"]
           "GTKStatusIconTray" (tray_args (Menu 1))).
  reflexivity.
Defined.

(** ** What a completed constructor leaves behind *)

Lemma construct_returns_bound p :
  snd (construct p) = Returns tt ->
  client (app (fst (construct p))) = Some mock_client_state
  /\ (exists mh, menu_helper (app (fst (construct p))) = Some mh)
  /\ (exists t, tray (app (fst (construct p))) = Some t).
Proof.
  intros Hret. split; [apply construct_client |].
  destruct (construct p) as [w r] eqn:Hrun. cbn [snd] in Hret. subst r.
  cbn [fst]. rewrite construct_unfold in Hrun.
  apply bind_returns_inv in Hrun. destruct Hrun as (w1 & m & Hmenu & Hatt).
  destruct (build_menu_returns_inv _ _ _ _ Hmenu) as (_ & mh & _ & _ & Hmh & _).
  split.
  - exists mh. pose proof (attach_tray_same_menu_helper p m w1) as Hsame.
    rewrite Hatt in Hsame. unfold same_menu_helper in Hsame. cbn [fst] in Hsame.
    congruence.
  - rewrite attach_tray_unfold in Hatt.
    destruct (snd (tray_candidates p new_object)) as [xs | e]; [| discriminate Hatt].
    apply bind_returns_inv in Hatt. destruct Hatt as (w2 & [] & _ & Htip).
    pose proof (set_tooltip_same_app w2) as Hsame. rewrite Htip in Hsame.
    unfold same_app in Hsame. cbn [fst] in Hsame.
    apply bind_returns_inv in Htip. destruct Htip as (w3 & t & Hget & _).
    unfold getattr in Hget. rewrite Hsame.
    destruct (tray (app w2)) as [t' |]; [exists t'; reflexivity | discriminate Hget].
Qed.

Lemma primary_press_schedules_activate_witness :
  client (app world_running) = Some mock_client_state
  /\ scheduled activate (new_events (xpra_tray_click 1 true 100) world_running)
     = [(1, 100)]
  /\ scheduled popup (new_events (xpra_tray_click 1 true 100) world_running) = [].
Proof.
  split; [reflexivity |].
  destruct (primary_press_schedules_activate world_running
              {| mh_name := "GTK3TrayMenu"; mh_truthy := true;
                 mh_build := Returns (Menu 1) |}
              100 eq_refl eq_refl) as (Ha & Hp & _).
  split; [exact Ha | exact Hp].
Defined.

Lemma secondary_release_schedules_popup_witness :
  client (app world_running) = Some mock_client_state
  /\ scheduled popup (new_events (xpra_tray_click 3 false 200) world_running)
     = [(3, 200)]
  /\ scheduled activate (new_events (xpra_tray_click 3 false 200) world_running) = [].
Proof.
  split; [reflexivity |].
  destruct (secondary_release_schedules_popup world_running
              {| mh_name := "GTK3TrayMenu"; mh_truthy := true;
                 mh_build := Returns (Menu 1) |}
              200 eq_refl eq_refl) as (Hp & Ha & _).
  split; [exact Hp | exact Ha].
Defined.

(** * Further properties of the constructor *)

(** The world a sequence ends in is related to the world its first
    part ends in, by any relation the second part keeps. *)
Lemma bind_keeps_after (R : World -> World -> Prop) {A B} (c : M A)
    (k : A -> M B) (w : World) :
  (forall w', R w' w') ->
  (forall a, keeps R (k a)) ->
  R (fst (c w)) (fst (bind c k w)).
Proof.
  intros Hrefl Hk. rewrite bind_unfold.
  destruct (c w) as [w1 [a | e]]; cbn [fst]; [apply Hk | apply Hrefl].
Qed.

(** ** The menu-helper loop *)

Lemma try_menu_helper_returns x w mh :
  mhc_new x (app w) = Returns mh ->
  try_menu_helper x w =
    ({| app := with_menu_helper (app w) mh;
        events := events w ++ [EvMenuHelperInit (mhc_name x)] |},
     Returns tt).
Proof.
  intros H.
  unfold try_menu_helper, try_except, bind, get_self, emit, eval,
    set_menu_helper, set_self.
  cbn [app events]. rewrite H. reflexivity.
Qed.

Lemma try_menu_helper_raises x w e :
  mhc_new x (app w) = Raises e ->
  try_menu_helper x w =
    if isinstance e Exception
    then ({| app := app w;
             events := events w ++
               [EvMenuHelperInit (mhc_name x);
                EvLog Warn "failed to create menu helper %s: %s"
                  [VStr (mhc_name x); VExn e]] |},
          Returns tt)
    else ({| app := app w;
             events := events w ++ [EvMenuHelperInit (mhc_name x)] |},
          Raises e).
Proof.
  intros H. unfold try_menu_helper, try_except, bind, get_self, emit, eval, log, emit.
  cbn [app events]. rewrite H.
  destruct (isinstance e Exception); [| reflexivity].
  cbn [app events]. rewrite <- app_assoc. reflexivity.
Qed.

Lemma menu_helper_loop_cons x rest w :
  menu_helper_loop (x :: rest) w =
    bind (match x with Some c => try_menu_helper c | None => ret tt end)
         (fun _ => menu_helper_loop rest) w.
Proof. reflexivity. Qed.

Lemma menu_helper_loop_app l1 l2 w :
  menu_helper_loop (l1 ++ l2) w =
    bind (menu_helper_loop l1) (fun _ => menu_helper_loop l2) w.
Proof.
  revert w. induction l1 as [| x l1 IH]; intros w.
  - reflexivity.
  - rewrite <- app_comm_cons, (bind_unfold (menu_helper_loop (x :: l1))).
    rewrite !menu_helper_loop_cons, !bind_unfold.
    destruct (match x with Some c => try_menu_helper c | None => ret tt end w)
      as [w1 [[] | e]]; [| reflexivity].
    rewrite IH, bind_unfold. reflexivity.
Qed.

Lemma menu_helper_loop_caught_returns l w :
  (forall c, In (Some c) l -> helper_caught c) ->
  snd (menu_helper_loop l w) = Returns tt.
Proof.
  revert w. induction l as [| x l IH]; intros w Hc; [reflexivity |].
  rewrite menu_helper_loop_cons, bind_unfold.
  assert (Hl : forall c, In (Some c) l -> helper_caught c).
  { intros c Hin. apply Hc. right. exact Hin. }
  destruct x as [c |]; [| apply IH; exact Hl].
  destruct (mhc_new c (app w)) as [mh | e] eqn:Hnew.
  - rewrite (try_menu_helper_returns _ _ _ Hnew). apply IH; exact Hl.
  - rewrite (try_menu_helper_raises _ _ _ Hnew).
    rewrite (Hc c (or_introl eq_refl) (app w) e Hnew). apply IH; exact Hl.
Qed.

Lemma menu_helper_loop_never_returns_same l :
  (forall c, In (Some c) l -> helper_never_returns c) ->
  keeps same_app (menu_helper_loop l).
Proof.
  induction l as [| x l IH]; intros Hn w; [reflexivity |].
  rewrite menu_helper_loop_cons, bind_unfold.
  assert (Hl : forall c, In (Some c) l -> helper_never_returns c).
  { intros c Hin. apply Hn. right. exact Hin. }
  destruct x as [c |]; [| apply IH; exact Hl].
  pose proof (Hn c (or_introl eq_refl) (app w)) as Hr.
  destruct (mhc_new c (app w)) as [mh | e] eqn:Hnew; [discriminate Hr |].
  rewrite (try_menu_helper_raises _ _ _ Hnew).
  destruct (isinstance e Exception); [| reflexivity].
  eapply same_app_trans; [| apply IH; exact Hl]. reflexivity.
Qed.

Lemma menu_helper_loop_binds_last l1 c mh l2 w :
  (forall c', In (Some c') l1 -> helper_caught c') ->
  helper_succeeds_with c mh ->
  (forall c', In (Some c') l2 -> helper_never_returns c') ->
  menu_helper (app (fst (menu_helper_loop (l1 ++ Some c :: l2) w))) = Some mh.
Proof.
  intros H1 Hc H2.
  rewrite menu_helper_loop_app, bind_unfold.
  pose proof (menu_helper_loop_caught_returns l1 w H1) as Hret.
  destruct (menu_helper_loop l1 w) as [w1 r1]. cbn [snd] in Hret. subst r1.
  rewrite menu_helper_loop_cons, bind_unfold,
    (try_menu_helper_returns _ _ _ (Hc (app w1))).
  rewrite (menu_helper_loop_never_returns_same l2 H2). reflexivity.
Qed.

(** Lines 94 to 100 once the import and the platform getter have
    answered. *)
Lemma select_menu_helper_unfold p native gtk w :
  import_GTK3TrayMenu p = Returns gtk ->
  get_native_tray_menu_helper_class p = Returns native ->
  select_menu_helper p w =
    bind (menu_helper_loop [native; Some gtk])
      (fun _ =>
         mh <- getattr "menu_helper" menu_helper ;;
         if mh_truthy mh then ret tt else raise (mkExn AssertionError "")) w.
Proof.
  intros Himp Hnat.
  unfold select_menu_helper, import_GTKTrayMenu, try_except.
  rewrite bind_unfold. rewrite bind_unfold. unfold eval at 1. rewrite Himp.
  unfold ret at 1. rewrite bind_unfold. unfold eval at 1. rewrite Hnat.
  reflexivity.
Qed.

Lemma assert_menu_helper_same_app :
  keeps same_app
    (mh <- getattr "menu_helper" menu_helper ;;
     if mh_truthy mh then ret tt else raise (mkExn AssertionError "")).
Proof. same_app_steps. Qed.

Lemma call_build_same_app :
  keeps same_app
    (mh <- getattr "menu_helper" menu_helper ;;
     emit (EvMenuBuild (mh_name mh) (mh_build mh)) ;;
     eval (mh_build mh)).
Proof. same_app_steps. Qed.

(** The menu helper at the end of the constructor is the one the loop
    left. *)
Lemma construct_menu_helper_of_loop p native gtk :
  import_GTK3TrayMenu p = Returns gtk ->
  get_native_tray_menu_helper_class p = Returns native ->
  menu_helper (app (fst (construct p)))
  = menu_helper (app (fst (menu_helper_loop [native; Some gtk] fields_assigned))).
Proof.
  intros Himp Hnat. rewrite construct_unfold.
  pose proof (bind_keeps_after same_menu_helper (build_menu p) (attach_tray p)
                fields_assigned same_menu_helper_refl
                (attach_tray_same_menu_helper p)) as H3.
  unfold same_menu_helper in H3. rewrite H3. clear H3.
  unfold build_menu.
  pose proof (bind_keeps_after same_app (select_menu_helper p)
                (fun _ =>
                   mh <- getattr "menu_helper" menu_helper ;;
                   emit (EvMenuBuild (mh_name mh) (mh_build mh)) ;;
                   eval (mh_build mh))
                fields_assigned same_app_refl
                (fun _ => call_build_same_app)) as H2.
  unfold same_app in H2. rewrite H2. clear H2.
  rewrite (select_menu_helper_unfold p native gtk _ Himp Hnat).
  pose proof (bind_keeps_after same_app (menu_helper_loop [native; Some gtk])
                (fun _ =>
                   mh <- getattr "menu_helper" menu_helper ;;
                   if mh_truthy mh then ret tt else raise (mkExn AssertionError ""))
                fields_assigned same_app_refl
                (fun _ => assert_menu_helper_same_app)) as H1.
  unfold same_app in H1. rewrite H1. reflexivity.
Qed.

(** X1.  The menu-helper loop does not stop at a success either.  When
    the GTK menu class is imported and the platform getter answers, no
    candidate of [(native, GTKTrayMenu)] before [c] raises anything but
    an [Exception], the constructor of [c] returns [mh] and no
    candidate after [c] returns, the helper bound to [self.menu_helper]
    at the end is [mh]: the last candidate whose constructor succeeds.
    A working GTK menu helper therefore always replaces a working
    native one. *)
Theorem menu_helper_bound_is_last_success (p : Platform)
    (native : option MenuHelperClass) (gtk c : MenuHelperClass)
    (l1 l2 : list (option MenuHelperClass)) (mh : MenuHelper) :
  import_GTK3TrayMenu p = Returns gtk ->
  get_native_tray_menu_helper_class p = Returns native ->
  [native; Some gtk] = l1 ++ Some c :: l2 ->
  (forall c', In (Some c') l1 -> helper_caught c') ->
  helper_succeeds_with c mh ->
  (forall c', In (Some c') l2 -> helper_never_returns c') ->
  menu_helper (app (fst (construct p))) = Some mh.
Proof.
  intros Himp Hnat Hsplit H1 Hc H2.
  rewrite (construct_menu_helper_of_loop p native gtk Himp Hnat), Hsplit.
  apply menu_helper_loop_binds_last; assumption.
Qed.

Lemma menu_helper_bound_is_last_success_witness :
  get_native_tray_menu_helper_class platform_two_helpers
    = Returns (Some (good_helper "native" 2))
  /\ option_map mh_name (menu_helper (app (fst (construct platform_two_helpers))))
     = Some "GTK3TrayMenu".
Proof.
  split; [reflexivity |].
  rewrite (menu_helper_bound_is_last_success platform_two_helpers
             (Some (good_helper "native" 2)) (good_helper "GTK3TrayMenu" 1)
             (good_helper "GTK3TrayMenu" 1)
             [Some (good_helper "native" 2)] []
             {| mh_name := "GTK3TrayMenu"; mh_truthy := true;
                mh_build := Returns (Menu 1) |}).
  - reflexivity.
  - reflexivity.
  - reflexivity.
  - reflexivity.
  - intros c' Hin self e He. destruct Hin as [Hin | []].
    injection Hin as <-. discriminate He.
  - intros self. reflexivity.
  - intros c' [].
Defined.

Lemma Forall_existsb_false {A} (f : A -> bool) (l : list A) :
  Forall (fun x => f x = false) l -> existsb f l = false.
Proof.
  induction 1 as [| x l Hx _ IH]; [reflexivity |].
  cbn [existsb]. rewrite Hx, IH. reflexivity.
Qed.

Lemma Forall_weaken {A} (P Q : A -> Prop) (l : list A) :
  (forall x, P x -> Q x) -> Forall P l -> Forall Q l.
Proof. intros H F. induction F; constructor; auto. Qed.

Lemma menu_helper_loop_before_menu_build xs :
  keeps (appends before_menu_build) (menu_helper_loop xs).
Proof.
  induction xs as [| [c |] rest IH]; cbn [menu_helper_loop];
    unfold try_menu_helper;
    appends_steps before_menu_build ltac:(split; reflexivity).
Qed.

(** X2.  When the GTK menu class is imported and every menu-helper
    constructor raises an [Exception], the attribute [menu_helper] is
    never assigned: the [assert] of line 100 does not get to test
    anything, reading the attribute raises [AttributeError].  Nothing
    is built and no tray is tried. *)
Theorem no_working_menu_helper_raises_AttributeError (p : Platform)
    (native : option MenuHelperClass) (gtk : MenuHelperClass) :
  import_GTK3TrayMenu p = Returns gtk ->
  get_native_tray_menu_helper_class p = Returns native ->
  (forall c, In (Some c) [native; Some gtk] -> helper_fails c) ->
  snd (construct p) = Raises (no_attribute "menu_helper")
  /\ menu_helper (app (fst (construct p))) = None
  /\ tray (app (fst (construct p))) = None
  /\ existsb is_menu_build (events (fst (construct p))) = false
  /\ existsb is_tray_init (events (fst (construct p))) = false.
Proof.
  intros Himp Hnat Hfail.
  assert (Hcaught : forall c, In (Some c) [native; Some gtk] -> helper_caught c).
  { intros c Hin self e He. destruct (Hfail c Hin self) as (e' & He' & Hcls).
    congruence. }
  assert (Hnever : forall c, In (Some c) [native; Some gtk] ->
                             helper_never_returns c).
  { intros c Hin self. destruct (Hfail c Hin self) as (e' & He' & _).
    rewrite He'. reflexivity. }
  pose proof (menu_helper_loop_caught_returns _ fields_assigned Hcaught) as Hret.
  pose proof (menu_helper_loop_never_returns_same _ Hnever fields_assigned) as Hsame.
  destruct (menu_helper_loop_before_menu_build [native; Some gtk] fields_assigned)
    as (added & Eadd & Fadd).
  destruct (menu_helper_loop [native; Some gtk] fields_assigned) as [w1 r] eqn:Hloop.
  cbn [fst snd] in Hret, Hsame, Eadd. subst r. unfold same_app in Hsame.
  assert (Hrun : construct p = (w1, Raises (no_attribute "menu_helper"))).
  { rewrite construct_unfold. apply bind_raises. unfold build_menu.
    apply bind_raises.
    rewrite (select_menu_helper_unfold p native gtk _ Himp Hnat).
    rewrite (bind_returns _ _ _ _ _ Hloop).
    unfold getattr, bind. rewrite Hsame. reflexivity. }
  rewrite Hrun. cbn [fst snd]. rewrite Hsame, Eadd.
  change (events fields_assigned ++ added) with added.
  repeat split.
  - apply Forall_existsb_false. revert Fadd. apply Forall_weaken.
    intros ev [H _]. exact H.
  - apply Forall_existsb_false. revert Fadd. apply Forall_weaken.
    intros ev [_ H]. exact H.
Qed.

Lemma no_working_menu_helper_raises_AttributeError_witness :
  snd (construct platform_no_helper) = Raises (no_attribute "menu_helper")
  /\ existsb is_tray_init (events (fst (construct platform_no_helper))) = false.
Proof.
  assert (Hfail : forall c,
            In (Some c) [Some (bad_helper "native"); Some (bad_helper "GTK3TrayMenu")] ->
            helper_fails c).
  { intros c Hin self. exists (runtime_error "no menu").
    destruct Hin as [Hin | [Hin | []]]; injection Hin as <-; split; reflexivity. }
  destruct (no_working_menu_helper_raises_AttributeError platform_no_helper
              (Some (bad_helper "native")) (bad_helper "GTK3TrayMenu")
              eq_refl eq_refl Hfail) as (Hr & _ & _ & _ & Ht).
  split; [exact Hr | exact Ht].
Defined.

(** X3.  When a menu helper is bound and its [build()] raises, the
    constructor ends with that exception right after the call: no tray
    constructor is called and no tray is bound. *)
Theorem failed_menu_build_aborts_construction (p : Platform) (w1 : World)
    (mh : MenuHelper) (e : exn) :
  select_menu_helper p fields_assigned = (w1, Returns tt) ->
  menu_helper (app w1) = Some mh ->
  mh_build mh = Raises e ->
  construct p =
    ({| app := app w1;
        events := events w1 ++ [EvMenuBuild (mh_name mh) (Raises e)] |},
     Raises e)
  /\ tray (app (fst (construct p))) = None
  /\ existsb is_tray_init (events (fst (construct p))) = false.
Proof.
  intros Hsel Hmh Hb.
  assert (Hbuild : build_menu p fields_assigned =
    ({| app := app w1;
        events := events w1 ++ [EvMenuBuild (mh_name mh) (Raises e)] |},
     Raises e)).
  { unfold build_menu. rewrite (bind_returns _ _ _ _ _ Hsel).
    unfold getattr, emit, eval, bind. rewrite Hmh. cbn [app events].
    rewrite Hb. reflexivity. }
  assert (Hrun : construct p =
    ({| app := app w1;
        events := events w1 ++ [EvMenuBuild (mh_name mh) (Raises e)] |},
     Raises e)).
  { rewrite construct_unfold. apply bind_raises. exact Hbuild. }
  split; [exact Hrun |].
  pose proof (build_menu_same_tray p fields_assigned) as Hsame.
  destruct (build_menu_appends p fields_assigned) as (added & Eadd & Fadd).
  rewrite Hbuild in Hsame, Eadd. cbn [fst] in Hsame, Eadd.
  rewrite Hrun. cbn [fst]. split; [exact Hsame |].
  rewrite Eadd. change (events fields_assigned ++ added) with added.
  apply Forall_existsb_false. exact Fadd.
Qed.

Lemma failed_menu_build_aborts_construction_witness :
  snd (construct platform_no_menu) = Raises (runtime_error "cannot build the menu")
  /\ tray (app (fst (construct platform_no_menu))) = None.
Proof.
  destruct (failed_menu_build_aborts_construction platform_no_menu
              (fst (select_menu_helper platform_no_menu fields_assigned))
              {| mh_name := "GTK3TrayMenu"; mh_truthy := true;
                 mh_build := Raises (runtime_error "cannot build the menu") |}
              (runtime_error "cannot build the menu")
              eq_refl eq_refl eq_refl) as (Hrun & Ht & _).
  split; [rewrite Hrun; reflexivity | exact Ht].
Defined.

(** X4.  An exception of the import of [GTKStatusIconTray] that is
    not an [ImportError] is not caught by line 104: the constructor
    ends with it once the menu is built, before any tray is tried, even
    when the platform has working tray classes of its own. *)
Theorem broken_statusicon_import_aborts_construction (p : Platform)
    (w1 : World) (menu : MenuHandle) (e : exn) :
  build_menu p fields_assigned = (w1, Returns menu) ->
  import_GTKStatusIconTray p = Raises e ->
  isinstance e ImportError = false ->
  construct p = (w1, Raises e)
  /\ tray (app w1) = None
  /\ existsb is_tray_init (events w1) = false.
Proof.
  intros Hmenu Himp Hcls. split.
  - rewrite construct_unfold, (bind_returns _ _ _ _ _ Hmenu).
    unfold attach_tray, tray_candidates, import_statusicon_tray, try_except.
    rewrite !bind_unfold. unfold eval at 1. rewrite Himp, Hcls. reflexivity.
  - pose proof (build_menu_same_tray p fields_assigned) as Hsame.
    destruct (build_menu_appends p fields_assigned) as (added & Eadd & Fadd).
    rewrite Hmenu in Hsame, Eadd. cbn [fst] in Hsame, Eadd.
    split; [exact Hsame |].
    rewrite Eadd. change (events fields_assigned ++ added) with added.
    apply Forall_existsb_false. exact Fadd.
Qed.

Lemma broken_statusicon_import_aborts_construction_witness :
  get_native_tray_classes platform_broken_statusicon
    = Returns [Some (good_tray "native")]
  /\ snd (construct platform_broken_statusicon)
     = Raises (runtime_error "Gtk is not available").
Proof.
  split; [reflexivity |].
  destruct (broken_statusicon_import_aborts_construction
              platform_broken_statusicon
              (fst (build_menu platform_broken_statusicon fields_assigned))
              (Menu 1) (runtime_error "Gtk is not available")
              eq_refl eq_refl eq_refl) as (Hrun & _).
  rewrite Hrun. reflexivity.
Defined.

(** X5.  When the import of [GTKStatusIconTray] raises an
    [ImportError], the fallback entry of the candidate list is [None],
    which the test of line 107 skips: the constructor goes on exactly
    as if the list were the native classes alone, without a log entry
    for the missing class. *)
Theorem missing_statusicon_is_skipped (p : Platform) (e : exn)
    (natives : list (option TrayClass)) (menu : MenuHandle) (w : World) :
  import_GTKStatusIconTray p = Raises e ->
  isinstance e ImportError = true ->
  get_native_tray_classes p = Returns natives ->
  snd (tray_candidates p new_object) = Returns (natives ++ [None])
  /\ tray_loop menu (natives ++ [None]) w = tray_loop menu natives w
  /\ attach_tray p menu w
     = bind (tray_loop menu natives) (fun _ => set_tray_tooltip) w.
Proof.
  intros Himp Hcls Hnat.
  assert (Hc : snd (tray_candidates p new_object) = Returns (natives ++ [None])).
  { unfold tray_candidates, import_statusicon_tray, try_except, bind, eval, ret.
    rewrite Himp, Hcls, Hnat. reflexivity. }
  assert (Hloop : forall w', tray_loop menu (natives ++ [None]) w'
                             = tray_loop menu natives w').
  { intros w'. rewrite tray_loop_app, bind_unfold.
    destruct (tray_loop menu natives w') as [w2 [[] | e']]; reflexivity. }
  split; [exact Hc |]. split; [apply Hloop |].
  rewrite attach_tray_unfold, Hc, !bind_unfold, Hloop. reflexivity.
Qed.

Lemma missing_statusicon_is_skipped_witness :
  snd (tray_candidates platform_no_statusicon new_object)
    = Returns ([Some (good_tray "native")] ++ [None])
  /\ attach_tray platform_no_statusicon (Menu 1) new_object
     = bind (tray_loop (Menu 1) [Some (good_tray "native")])
         (fun _ => set_tray_tooltip) new_object.
Proof.
  destruct (missing_statusicon_is_skipped platform_no_statusicon
              (import_error "xpra.client.gtk_base.statusicon_tray")
              [Some (good_tray "native")] (Menu 1) new_object
              eq_refl eq_refl eq_refl) as (Hc & _ & Ha).
  split; [exact Hc | exact Ha].
Defined.

(** ** Which tray constructors are called *)

Lemma Forall_filter_nil {A} (f : A -> bool) (l : list A) :
  Forall (fun x => f x = false) l -> filter f l = [].
Proof.
  induction 1 as [| x l Hx _ IH]; [reflexivity |].
  cbn [filter]. rewrite Hx. exact IH.
Qed.

Lemma new_events_of_appended {A} (c : M A) (w : World) added :
  events (fst (c w)) = events w ++ added -> new_events c w = added.
Proof. intros E. unfold new_events. rewrite E. apply skipn_length_app. Qed.

(** With every exception caught, the loop calls the constructor of
    each candidate that is not [None], in list order. *)
Lemma tray_loop_attempts menu xs w :
  (forall c, In (Some c) xs -> tray_caught menu c) ->
  exists added,
    events (fst (tray_loop menu xs w)) = events w ++ added
    /\ filter is_tray_init added = map (tray_attempt menu) (truthy_classes xs).
Proof.
  revert w. induction xs as [| x xs IH]; intros w Hc.
  - exists []. split; [symmetry; apply app_nil_r | reflexivity].
  - assert (Hxs : forall c, In (Some c) xs -> tray_caught menu c).
    { intros c Hin. apply Hc. right. exact Hin. }
    rewrite tray_loop_cons, bind_unfold.
    destruct x as [c |]; [| apply IH; exact Hxs].
    destruct (tc_new c (app w) (tray_args menu)) as [h | e] eqn:Hnew.
    + rewrite (try_tray_returns _ _ _ _ Hnew).
      destruct (IH {| app := with_tray (app w) h;
                      events := events w ++ [EvTrayInit (tc_name c) (tray_args menu)] |} Hxs)
        as (added & E & F).
      exists (EvTrayInit (tc_name c) (tray_args menu) :: added). split.
      * rewrite E. cbn [events]. rewrite <- app_assoc. reflexivity.
      * cbn [filter is_tray_init truthy_classes map].
        rewrite F. reflexivity.
    + rewrite (try_tray_raises _ _ _ _ Hnew),
        (Hc c (or_introl eq_refl) (app w) e Hnew).
      destruct (IH {| app := app w;
                      events := events w ++
                        [EvTrayInit (tc_name c) (tray_args menu);
                         EvLog Warn "failed to create tray %s: %s"
                           [VStr (tc_name c); VExn e]] |} Hxs)
        as (added & E & F).
      exists (EvTrayInit (tc_name c) (tray_args menu)
              :: EvLog Warn "failed to create tray %s: %s"
                   [VStr (tc_name c); VExn e] :: added). split.
      * rewrite E. cbn [events]. rewrite <- app_assoc. reflexivity.
      * cbn [filter is_tray_init truthy_classes map].
        rewrite F. reflexivity.
Qed.

(** X6.  The tray loop has no [break]: as long as what the
    constructors raise is an [Exception], it calls the constructor of
    every candidate that is not [None], once each and in list order,
    whether or not an earlier one succeeded, and reaches its end. *)
Theorem tray_loop_tries_every_candidate (menu : MenuHandle)
    (xs : list (option TrayClass)) (w : World) :
  (forall c, In (Some c) xs -> tray_caught menu c) ->
  filter is_tray_init (new_events (tray_loop menu xs) w)
    = map (tray_attempt menu) (truthy_classes xs)
  /\ snd (tray_loop menu xs w) = Returns tt.
Proof.
  intros Hc. split; [| apply tray_loop_caught_returns; exact Hc].
  destruct (tray_loop_attempts menu xs w Hc) as (added & E & F).
  rewrite (new_events_of_appended _ _ _ E). exact F.
Qed.

Lemma tray_loop_tries_every_candidate_witness :
  filter is_tray_init
    (new_events (tray_loop (Menu 1)
                   [Some (good_tray "native"); None; Some (bad_tray "appindicator");
                    Some (good_tray "GTKStatusIconTray")]) new_object)
  = [tray_attempt (Menu 1) (good_tray "native");
     tray_attempt (Menu 1) (bad_tray "appindicator");
     tray_attempt (Menu 1) (good_tray "GTKStatusIconTray")].
Proof.
  apply (tray_loop_tries_every_candidate (Menu 1)
           [Some (good_tray "native"); None; Some (bad_tray "appindicator");
            Some (good_tray "GTKStatusIconTray")] new_object).
  intros c Hin self e He.
  destruct Hin as [Hin | [Hin | [Hin | [Hin | []]]]];
    try discriminate Hin; injection Hin as <-;
    first [discriminate He | injection He as <-; reflexivity].
Defined.

(** X7.  An exception that is not an [Exception], such as
    [KeyboardInterrupt], is not caught by line 114: the loop ends with
    it at the candidate that raised it, and the constructors of the
    candidates after it are not called. *)
Theorem tray_loop_stops_at_non_exception (menu : MenuHandle)
    (l1 l2 : list (option TrayClass)) (c : TrayClass) (e : exn) (w : World) :
  (forall c', In (Some c') l1 -> tray_caught menu c') ->
  (forall self, tc_new c self (tray_args menu) = Raises e) ->
  isinstance e Exception = false ->
  snd (tray_loop menu (l1 ++ Some c :: l2) w) = Raises e
  /\ filter is_tray_init (new_events (tray_loop menu (l1 ++ Some c :: l2)) w)
     = map (tray_attempt menu) (truthy_classes l1 ++ [c]).
Proof.
  intros H1 Hraise Hcls.
  destruct (tray_loop_attempts menu l1 w H1) as (added & E & F).
  pose proof (tray_loop_caught_returns menu l1 w H1) as Hret.
  assert (Hrun : tray_loop menu (l1 ++ Some c :: l2) w =
    ({| app := app (fst (tray_loop menu l1 w));
        events := events w ++ added ++ [tray_attempt menu c] |},
     Raises e)).
  { rewrite tray_loop_app, bind_unfold.
    destruct (tray_loop menu l1 w) as [w1 r1]. cbn [fst snd] in E, Hret. subst r1.
    rewrite tray_loop_cons, bind_unfold, (try_tray_raises _ _ _ _ (Hraise (app w1))).
    rewrite Hcls, E, <- app_assoc. reflexivity. }
  split; [rewrite Hrun; reflexivity |].
  rewrite (new_events_of_appended _ _ (added ++ [tray_attempt menu c])).
  - rewrite filter_app, F, map_app. reflexivity.
  - rewrite Hrun. reflexivity.
Qed.

Lemma tray_loop_stops_at_non_exception_witness :
  snd (tray_loop (Menu 1)
         ([Some (bad_tray "native")]
          ++ Some (interrupted_tray "appindicator")
             :: [Some (good_tray "GTKStatusIconTray")]) new_object)
  = Raises keyboard_interrupt
  /\ filter is_tray_init
       (new_events (tray_loop (Menu 1)
          ([Some (bad_tray "native")]
           ++ Some (interrupted_tray "appindicator")
              :: [Some (good_tray "GTKStatusIconTray")])) new_object)
     = [tray_attempt (Menu 1) (bad_tray "native");
        tray_attempt (Menu 1) (interrupted_tray "appindicator")].
Proof.
  apply (tray_loop_stops_at_non_exception (Menu 1)
           [Some (bad_tray "native")] [Some (good_tray "GTKStatusIconTray")]
           (interrupted_tray "appindicator") keyboard_interrupt new_object).
  - intros c' Hin self e He. destruct Hin as [Hin | []].
    injection Hin as <-. injection He as <-. reflexivity.
  - intros self. reflexivity.
  - reflexivity.
Defined.

(** ** The tooltip *)

Lemma menu_helper_loop_not_set_tooltip xs :
  keeps (appends not_set_tooltip) (menu_helper_loop xs).
Proof.
  induction xs as [| [c |] rest IH]; cbn [menu_helper_loop];
    unfold try_menu_helper;
    appends_steps not_set_tooltip ltac:(reflexivity).
Qed.

Lemma build_menu_not_set_tooltip p :
  keeps (appends not_set_tooltip) (build_menu p).
Proof.
  pose proof menu_helper_loop_not_set_tooltip as Hloop.
  unfold build_menu, select_menu_helper, import_GTKTrayMenu.
  frame_steps ltac:(first [apply Hloop | appends_leaf ltac:(reflexivity)])
    (appends_refl not_set_tooltip) (appends_trans not_set_tooltip).
Qed.

Lemma tray_loop_not_set_tooltip menu xs :
  keeps (appends not_set_tooltip) (tray_loop menu xs).
Proof.
  induction xs as [| [c |] rest IH]; cbn [tray_loop]; unfold try_tray;
    appends_steps not_set_tooltip ltac:(reflexivity).
Qed.

Lemma set_tray_tooltip_same_app : keeps same_app set_tray_tooltip.
Proof. exact set_tooltip_same_app. Qed.

(** X8.  When the constructor reaches the tray loop and the loop
    reaches its end, the outcome of the constructor is the outcome of
    [set_tooltip("Test System Tray")] on the handle that is bound, and
    this is the only call of [set_tooltip]: a tray that raises there
    makes the construction fail although its handle is bound. *)
Theorem construction_ends_with_set_tooltip (p : Platform) (w1 : World)
    (menu : MenuHandle) (cands : list (option TrayClass)) (t : TrayHandle) :
  build_menu p fields_assigned = (w1, Returns menu) ->
  snd (tray_candidates p new_object) = Returns cands ->
  (forall c, In (Some c) cands -> tray_caught menu c) ->
  tray (app (fst (construct p))) = Some t ->
  snd (construct p) = th_set_tooltip t "Test System Tray"
  /\ filter is_set_tooltip (events (fst (construct p)))
     = [EvSetTooltip (th_name t) "Test System Tray"].
Proof.
  intros Hmenu Hxs Hc Ht.
  destruct (build_menu_not_set_tooltip p fields_assigned) as (added1 & E1 & F1).
  rewrite Hmenu in E1. cbn [fst] in E1.
  change (events w1 = added1) in E1.
  destruct (tray_loop_not_set_tooltip menu cands w1) as (added2 & E2 & F2).
  pose proof (tray_loop_caught_returns menu cands w1 Hc) as Hret.
  assert (Hrun : construct p =
            bind (tray_loop menu cands) (fun _ => set_tray_tooltip) w1).
  { rewrite construct_unfold, (bind_returns _ _ _ _ _ Hmenu), attach_tray_unfold, Hxs.
    reflexivity. }
  rewrite Hrun in Ht |- *. rewrite bind_unfold in Ht |- *.
  destruct (tray_loop menu cands w1) as [w2 r2]. cbn [fst snd] in E2, Hret. subst r2.
  rewrite (set_tray_tooltip_same_app w2) in Ht.
  unfold set_tray_tooltip, getattr, emit, eval, bind. rewrite Ht.
  cbn [fst snd events]. split; [reflexivity |].
  rewrite E2, E1, !filter_app.
  rewrite (Forall_filter_nil _ _ F1), (Forall_filter_nil _ _ F2). reflexivity.
Qed.

Lemma construction_ends_with_set_tooltip_witness :
  option_map th_name (tray (app (fst (construct platform_no_tooltip))))
    = Some "native"
  /\ snd (construct platform_no_tooltip) = Raises (runtime_error "no tooltip").
Proof.
  split; [reflexivity |].
  destruct (construction_ends_with_set_tooltip platform_no_tooltip
              (fst (build_menu platform_no_tooltip fields_assigned)) (Menu 1)
              [Some (tray_without_tooltip "native");
               Some (bad_tray "GTKStatusIconTray")]
              {| th_name := "native";
                 th_set_tooltip := fun _ => Raises (runtime_error "no tooltip");
                 th_get_geometry := Returns (0, 0, 24, 24) |}) as [Hr _].
  - reflexivity.
  - reflexivity.
  - intros c Hin self e He.
    destruct Hin as [Hin | [Hin | []]]; injection Hin as <-;
      first [discriminate He | injection He as <-; reflexivity].
  - reflexivity.
  - rewrite Hr. reflexivity.
Defined.

(** * Further properties of the callbacks *)

(** ** A constructed application *)

Lemma xpra_tray_click_returns w cs mh button pressed time :
  client (app w) = Some cs ->
  menu_helper (app w) = Some mh ->
  snd (xpra_tray_click button pressed time w) = Returns tt.
Proof.
  intros Hc Hm.
  destruct ((button =? 1) && pressed) eqn:H1.
  - apply andb_true_iff in H1. destruct H1 as [Hb Hp].
    apply Z.eqb_eq in Hb.
    rewrite (xpra_tray_click_scheduled w cs mh button pressed time activate Hc Hm
               (or_introl (conj Hb (conj Hp eq_refl)))).
    reflexivity.
  - destruct ((button =? 3) && negb pressed) eqn:H3.
    + apply andb_true_iff in H3. destruct H3 as [Hb Hp].
      apply Z.eqb_eq in Hb. apply negb_true_iff in Hp.
      rewrite (xpra_tray_click_scheduled w cs mh button pressed time popup Hc Hm
                 (or_intror (conj Hb (conj Hp eq_refl)))).
      reflexivity.
    + rewrite (xpra_tray_click_ignored w button pressed time H1 H3). reflexivity.
Qed.

Lemma xpra_tray_geometry_outcome args w t :
  tray (app w) = Some t ->
  snd (xpra_tray_geometry args w)
  = match th_get_geometry t with
    | Returns _ => Returns tt
    | Raises e => Raises e
    end.
Proof.
  intros Ht. unfold xpra_tray_geometry, getattr, emit, eval, log, emit, bind.
  rewrite Ht. cbn [app events]. destruct (th_get_geometry t); reflexivity.
Qed.

(** X9.  A constructor that returns leaves the three attributes
    bound: the client state, a menu helper and a tray.  On such an
    object, however long the trace has grown since, no callback raises
    [AttributeError]: every click returns, and a geometry query returns
    unless [get_geometry()] of the bound tray raises, in which case it
    raises the same exception. *)
Theorem completed_constructor_serves_callbacks (p : Platform) (w : World) :
  snd (construct p) = Returns tt ->
  app w = app (fst (construct p)) ->
  exists mh t,
    client (app w) = Some mock_client_state
    /\ menu_helper (app w) = Some mh
    /\ tray (app w) = Some t
    /\ (forall button pressed time,
          snd (deliver (Click button pressed time) w) = Returns tt)
    /\ (forall args,
          snd (deliver (GeometryQuery args) w)
          = match th_get_geometry t with
            | Returns _ => Returns tt
            | Raises e => Raises e
            end).
Proof.
  intros Hret Happ.
  destruct (construct_returns_bound p Hret) as (Hc & (mh & Hm) & (t & Ht)).
  rewrite <- Happ in Hc, Hm, Ht.
  exists mh, t. repeat split; try assumption.
  - intros button pressed time.
    apply (xpra_tray_click_returns w mock_client_state mh); assumption.
  - intros args. apply xpra_tray_geometry_outcome. exact Ht.
Qed.

Lemma completed_constructor_serves_callbacks_witness :
  snd (construct platform_two_trays) = Returns tt
  /\ snd (deliver (Click 1 true 100) world_running) = Returns tt
  /\ snd (deliver (GeometryQuery []) world_running) = Returns tt.
Proof.
  split; [reflexivity |].
  destruct (completed_constructor_serves_callbacks platform_two_trays world_running
              eq_refl eq_refl) as (mh & t & _ & _ & Ht & Hclick & Hgeo).
  split; [apply Hclick |].
  rewrite Hgeo. injection Ht as <-. reflexivity.
Defined.

(** ** Sequences of clicks *)





(** ** Who calls Gtk.main_quit *)

Lemma deliver_no_quit ev :
  is_exit_request ev = false -> keeps (appends not_main_quit) (deliver ev).
Proof.
  intros Hev. destruct ev; try discriminate Hev; cbn [deliver];
    unfold xpra_tray_click, xpra_tray_mouseover, xpra_tray_geometry;
    appends_steps not_main_quit ltac:(reflexivity).
Qed.

Lemma deliver_quit_calls ev w :
  quit_calls (events (fst (deliver ev w)))
  = (quit_calls (events w) + (if is_exit_request ev then 1 else 0))%nat.
Proof.
  destruct (is_exit_request ev) eqn:Hev.
  - destruct ev; try discriminate Hev. cbn [deliver].
    unfold xpra_tray_exit, log, emit, bind. cbn [fst app events].
    rewrite <- app_assoc, quit_calls_app. reflexivity.
  - destruct (deliver_no_quit ev Hev w) as (added & E & F).
    rewrite E, quit_calls_app. unfold quit_calls at 2.
    rewrite (Forall_filter_nil _ _ F). reflexivity.
Qed.

(** X11.  Among the tray callbacks only the exit request calls
    [Gtk.main_quit()], and it does so once per request: after a sequence
    of events that is delivered to its end, the number of calls has
    grown by the number of exit requests in the sequence. *)
Theorem quit_calls_count_exit_requests (evs : list TrayEvent) (w : World) :
  snd (deliver_all evs w) = Returns tt ->
  quit_calls (events (fst (deliver_all evs w)))
  = (quit_calls (events w) + exit_requests evs)%nat.
Proof.
  revert w. induction evs as [| ev evs IH]; intros w Hret.
  - cbn. apply plus_n_O.
  - cbn [deliver_all] in Hret |- *. rewrite bind_unfold in Hret |- *.
    pose proof (deliver_quit_calls ev w) as Hq.
    destruct (deliver ev w) as [w1 [[] | e]]; [| discriminate Hret].
    cbn [fst] in Hq. rewrite (IH w1 Hret), Hq.
    unfold exit_requests. cbn [filter].
    destruct (is_exit_request ev); cbn [List.length]; lia.
Qed.

Lemma quit_calls_count_exit_requests_witness :
  quit_calls (events (fst (deliver_all
     [Click 1 true 10; ExitRequest []; Mouseover []; GeometryQuery [];
      ExitRequest [VInt 1]] world_running))) = 2%nat.
Proof.
  rewrite (quit_calls_count_exit_requests
             [Click 1 true 10; ExitRequest []; Mouseover []; GeometryQuery [];
              ExitRequest [VInt 1]] world_running eq_refl).
  reflexivity.
Defined.

(** * get_image *)

(** The body of the [try] writes nothing. *)
Lemma get_image_body_world il icon_name size w :
  fst (get_image_body il icon_name size w) = w.
Proof.
  unfold get_image_body, bind, eval, ret.
  destruct icon_name as [name |]; [| reflexivity].
  destruct (str_truthy (Some name)); [| reflexivity].
  destruct (get_icon_filename il name) as [[filename |] | e]; try reflexivity.
  destruct (str_truthy (Some filename)); [| reflexivity].
  destruct (Pixbuf_new_from_file il filename) as [[pb |] | e]; reflexivity.
Qed.

Lemma get_image_unfold il icon_name size w :
  get_image il icon_name size w =
    match snd (get_image_body il icon_name size w) with
    | Returns v => (w, Returns v)
    | Raises e =>
        if isinstance e Exception
        then ({| app := app w;
                 events := events w ++
                   [EvLog Error "get_image(%s, %s)" [repr_name icon_name; size]] |},
              Returns None)
        else (w, Raises e)
    end.
Proof.
  unfold get_image, try_except.
  pose proof (get_image_body_world il icon_name size w) as Hw.
  destruct (get_image_body il icon_name size w) as [w' [v | e]];
    cbn [fst snd] in Hw |- *; subst w'; [reflexivity |].
  destruct (isinstance e Exception); reflexivity.
Qed.

(** X12.  [get_image] lets no [Exception] out: what it raises, if
    anything, is outside [Exception] (a [KeyboardInterrupt], say), and
    then nothing has been logged. *)
Theorem get_image_raises_no_Exception (il : IconLoader)
    (icon_name : option string) (size : value) (w : World) (e : exn) :
  snd (get_image il icon_name size w) = Raises e ->
  isinstance e Exception = false
  /\ fst (get_image il icon_name size w) = w.
Proof.
  rewrite get_image_unfold.
  destruct (snd (get_image_body il icon_name size w)) as [v | e0];
    [discriminate |].
  destruct (isinstance e0 Exception) eqn:Hcls; [discriminate |].
  cbn [fst snd]. intros H. injection H as <-. split; [exact Hcls | reflexivity].
Qed.

Lemma get_image_raises_no_Exception_witness :
  snd (get_image interrupted_loader (Some "quit") VNone new_object)
    = Raises keyboard_interrupt
  /\ isinstance keyboard_interrupt Exception = false.
Proof.
  split; [reflexivity |].
  apply (get_image_raises_no_Exception interrupted_loader (Some "quit") VNone
           new_object keyboard_interrupt eq_refl).
Defined.

(** X13.  [get_image] returns an image only when the icon name is not
    empty, [get_icon_filename] found a file name that is not empty,
    [Pixbuf.new_from_file] loaded it and [scaled_image] returned the
    image; nothing is logged then. *)
Theorem get_image_returns_image_inv (il : IconLoader)
    (icon_name : option string) (size : value) (w : World) (img : Image) :
  snd (get_image il icon_name size w) = Returns (Some img) ->
  exists name filename pb,
    icon_name = Some name
    /\ str_truthy (Some name) = true
    /\ get_icon_filename il name = Returns (Some filename)
    /\ str_truthy (Some filename) = true
    /\ Pixbuf_new_from_file il filename = Returns (Some pb)
    /\ scaled_image il pb size = Returns (Some img)
    /\ fst (get_image il icon_name size w) = w.
Proof.
  rewrite get_image_unfold.
  unfold get_image_body, bind, eval, ret.
  destruct icon_name as [name |]; [| discriminate].
  destruct (str_truthy (Some name)) eqn:Hn; [| discriminate].
  destruct (get_icon_filename il name) as [[filename |] | e] eqn:Hf;
    cbn [snd]; try discriminate.
  - destruct (str_truthy (Some filename)) eqn:Ht; [| discriminate].
    destruct (Pixbuf_new_from_file il filename) as [[pb |] | e] eqn:Hp;
      cbn [snd]; try discriminate.
    + destruct (scaled_image il pb size) as [v | e] eqn:Hs; cbn [snd].
      * intros H. injection H as ->.
        exists name, filename, pb. repeat split; try reflexivity; assumption.
      * destruct (isinstance e Exception); discriminate.
    + destruct (isinstance e Exception); discriminate.
  - destruct (isinstance e Exception); discriminate.
Qed.

Lemma get_image_returns_image_inv_witness :
  snd (get_image good_loader (Some "quit") VNone new_object)
    = Returns (Some (ImageHandle 1))
  /\ exists name filename pb,
       Some "quit" = Some name
       /\ str_truthy (Some name) = true
       /\ get_icon_filename good_loader name = Returns (Some filename)
       /\ str_truthy (Some filename) = true
       /\ Pixbuf_new_from_file good_loader filename = Returns (Some pb)
       /\ scaled_image good_loader pb VNone = Returns (Some (ImageHandle 1))
       /\ fst (get_image good_loader (Some "quit") VNone new_object) = new_object.
Proof.
  split; [reflexivity |].
  apply (get_image_returns_image_inv good_loader (Some "quit") VNone new_object
           (ImageHandle 1) eq_refl).
Defined.

(** X14.  When the icon name is not empty and one of the three steps
    raises an [Exception] (the lookup of the file name, the loading of
    the file, the scaling), [get_image] returns [None] and logs exactly
    one error, with the icon name and the size. *)
Theorem get_image_swallows_Exception (il : IconLoader) (name : string)
    (size : value) (w : World) (e : exn) :
  str_truthy (Some name) = true ->
  isinstance e Exception = true ->
  get_icon_filename il name = Raises e
  \/ (exists filename,
        get_icon_filename il name = Returns (Some filename)
        /\ str_truthy (Some filename) = true
        /\ (Pixbuf_new_from_file il filename = Raises e
            \/ exists pb,
                 Pixbuf_new_from_file il filename = Returns (Some pb)
                 /\ scaled_image il pb size = Raises e)) ->
  get_image il (Some name) size w =
    ({| app := app w;
        events := events w ++ [EvLog Error "get_image(%s, %s)" [VStr name; size]] |},
     Returns None).
Proof.
  intros Hn Hcls Hstage. rewrite get_image_unfold.
  assert (Hbody : snd (get_image_body il (Some name) size w) = Raises e).
  { unfold get_image_body, bind, eval, ret. rewrite Hn.
    destruct Hstage as [Hf | (filename & Hf & Ht & [Hp | (pb & Hp & Hs)])];
      rewrite Hf; [reflexivity | |]; rewrite Ht, Hp; [reflexivity |].
    rewrite Hs. reflexivity. }
  rewrite Hbody, Hcls. reflexivity.
Qed.

Lemma get_image_swallows_Exception_witness :
  get_image unreadable_loader (Some "quit") VNone new_object =
    ({| app := app new_object;
        events := [EvLog Error "get_image(%s, %s)" [VStr "quit"; VNone]] |},
     Returns None).
Proof.
  apply (get_image_swallows_Exception unreadable_loader "quit" VNone new_object
           (runtime_error "Failed to open file") eq_refl eq_refl).
  right. exists "/usr/share/xpra/icons/quit.png".
  split; [reflexivity |]. split; [reflexivity |]. left. reflexivity.
Defined.

(** X15.  A missing icon is not an error: when the icon name is empty
    or [None], when [get_icon_filename] answers [None] or an empty
    name, or when [Pixbuf.new_from_file] answers [None], [get_image]
    returns [None] and logs nothing. *)
Theorem get_image_missing_icon_is_silent (il : IconLoader)
    (icon_name : option string) (size : value) (w : World) :
  str_truthy icon_name = false
  \/ (exists name,
        icon_name = Some name
        /\ str_truthy icon_name = true
        /\ exists found,
             get_icon_filename il name = Returns found
             /\ (str_truthy found = false
                 \/ exists filename,
                      found = Some filename
                      /\ Pixbuf_new_from_file il filename = Returns None)) ->
  get_image il icon_name size w = (w, Returns None).
Proof.
  intros Hcase. rewrite get_image_unfold.
  assert (Hbody : snd (get_image_body il icon_name size w) = Returns None).
  { unfold get_image_body, bind, eval, ret.
    destruct Hcase as [Hn | (name & -> & Hn & found & Hf & Hrest)].
    - destruct icon_name as [name |]; [rewrite Hn |]; reflexivity.
    - rewrite Hn, Hf.
      destruct Hrest as [Ht | (filename & -> & Hp)].
      + destruct found as [filename |]; [rewrite Ht |]; reflexivity.
      + destruct (str_truthy (Some filename)); [rewrite Hp |]; reflexivity. }
  rewrite Hbody. reflexivity.
Qed.

Lemma get_image_missing_icon_is_silent_witness :
  get_image interrupted_loader (Some "") VNone new_object
    = (new_object, Returns None)
  /\ get_image interrupted_loader None VNone new_object
     = (new_object, Returns None).
Proof.
  split.
  - apply (get_image_missing_icon_is_silent interrupted_loader (Some "") VNone
             new_object).
    left. reflexivity.
  - apply (get_image_missing_icon_is_silent interrupted_loader None VNone
             new_object).
    left. reflexivity.
Defined.
